(** * Push / local notification management of the trading-alert app

    A shallow embedding of the notification module (permission gate, token
    registrar, local dispatcher, listener set-up) and of the notification
    listing sheet, together with the properties of the specification that
    concern them.

    The module is asynchronous TypeScript.  Every [await] is a call into the
    platform notification centre or into the database layer; such a call
    either returns a value or throws.  The embedding threads an explicit
    state through a state-and-exception monad: the state carries the
    chronological trace of every external call and console line, the two
    stores the database layer owns, and the platform's listener registry.
    What an external call answers is given by an environment that may look
    at the whole state, hence at the whole history of calls. *)

From Stdlib Require Import ZArith Bool.
From stdpp Require Import base strings list gmap.

Local Open Scope string_scope.
Local Open Scope list_scope.

(** ** Values *)

(** The payload of a notification is typed [any] in the source. *)
#[warnings="-register-all"]
Inductive JsValue : Type :=
| JsUndefined
| JsNull
| JsBool (b : bool)
| JsNumber (n : Z)
| JsString (s : string)
| JsObject (fields : list (string * JsValue)).

(** [v?.k]: property read with optional chaining.  Only plain data objects
    carry the properties read by this module. *)
Fixpoint lookup_field (k : string) (fields : list (string * JsValue)) : JsValue :=
  match fields with
  | [] => JsUndefined
  | (k', v) :: rest => if String.eqb k k' then v else lookup_field k rest
  end.

Definition optional_get (v : JsValue) (k : string) : JsValue :=
  match v with
  | JsObject fields => lookup_field k fields
  | _ => JsUndefined
  end.

(** [v === 'lit'] against a string literal. *)
Definition strict_eq_string (v : JsValue) (lit : string) : bool :=
  match v with
  | JsString s => String.eqb s lit
  | _ => false
  end.

(** Truthiness, as tested by [&&] and [if]. *)
Definition truthy (v : JsValue) : bool :=
  match v with
  | JsUndefined | JsNull => false
  | JsBool b => b
  | JsNumber n => negb (Z.eqb n 0)
  | JsString s => negb (String.eqb s "")
  | JsObject _ => true
  end.

(** [type] of [PushNotificationData]. *)
Inductive NotificationType : Type := signal | achievement | announcement | alert.

Record PushNotificationData : Type := {
  pn_type : NotificationType;
  pn_title : string;
  pn_message : string;
  pn_data : JsValue
}.

(** Status strings of the platform permission API. *)
Inductive PermissionStatus : Type := granted | denied | undetermined.

Definition is_granted (st : PermissionStatus) : bool :=
  match st with granted => true | _ => false end.

(** A thrown JavaScript error, identified by its message. *)
Definition Error : Type := string.

Inductive Outcome (A : Type) : Type :=
| Returns (a : A)
| Throws (e : Error).
Arguments Returns {A} a.
Arguments Throws {A} e.

(** ** Platform notification centre: request and event shapes *)

Record NotificationContent : Type := {
  content_title : string;
  content_body : string;
  content_data : JsValue
}.

(** [trigger: null] is [None]; a scheduled trigger carries a time. *)
Record NotificationRequestInput : Type := {
  req_content : NotificationContent;
  req_trigger : option Z
}.

Record NotificationRequest : Type := { request_content : NotificationContent }.
Record Notification : Type := { notification_request : NotificationRequest }.
Record NotificationResponse : Type := { response_notification : Notification }.

Inductive ListenerKind : Type := ReceivedListener | ResponseListener.

(** A platform subscription handle. *)
Record Subscription : Type := {
  sub_id : nat;
  sub_kind : ListenerKind
}.

(** ** Database layer: argument and row shapes *)

Record UserProfileFields : Type := {
  user_id : string;
  fcm_token : string;
  device_type : string;
  app_version : string
}.

Record NotificationFields : Type := {
  nf_type : NotificationType;
  nf_title : string;
  nf_message : string;
  nf_data : JsValue
}.

Record NotificationRecord : Type := {
  rec_id : nat;
  rec_type : NotificationType;
  rec_title : string;
  rec_message : string;
  rec_data : JsValue;
  rec_created_at : Z;
  rec_read : bool
}.

(** ** Observable events *)

Inductive LogArg : Type :=
| LogNothing
| LogString (s : string)
| LogValue (v : JsValue)
| LogNotification (n : Notification)
| LogResponse (r : NotificationResponse).

Inductive Event : Type :=
| Call_getPermissionsAsync
| Call_requestPermissionsAsync
| Call_getExpoPushTokenAsync
| Call_upsertUserProfile (fields : UserProfileFields)
| Call_scheduleNotificationAsync (req : NotificationRequestInput)
| Call_createNotification (fields : NotificationFields)
| Call_addNotificationReceivedListener (sub : nat)
| Call_addNotificationResponseReceivedListener (sub : nat)
| Call_removeNotificationSubscription (sub : nat)
| Console_log (msg : string) (arg : LogArg)
| Console_error (msg : string) (err : Error).

(** ** State *)

Record State : Type := {
  trace : list Event;
  profiles : gmap string UserProfileFields;
  notifications : list NotificationRecord;
  subscriptions : list Subscription;
  next_subscription : nat
}.

Definition initial_state : State :=
  {| trace := []; profiles := ∅; notifications := [];
     subscriptions := []; next_subscription := 0 |}.

Definition emit (e : Event) (s : State) : State :=
  {| trace := trace s ++ [e];
     profiles := profiles s;
     notifications := notifications s;
     subscriptions := subscriptions s;
     next_subscription := next_subscription s |}.

Definition set_profiles (p : gmap string UserProfileFields) (s : State) : State :=
  {| trace := trace s;
     profiles := p;
     notifications := notifications s;
     subscriptions := subscriptions s;
     next_subscription := next_subscription s |}.

Definition set_notifications (n : list NotificationRecord) (s : State) : State :=
  {| trace := trace s;
     profiles := profiles s;
     notifications := n;
     subscriptions := subscriptions s;
     next_subscription := next_subscription s |}.

Definition set_subscriptions (l : list Subscription) (next : nat) (s : State) : State :=
  {| trace := trace s;
     profiles := profiles s;
     notifications := notifications s;
     subscriptions := l;
     next_subscription := next |}.

(** ** The state-and-exception monad *)

Definition M (A : Type) : Type := State -> Outcome A * State.

Definition ret {A : Type} (a : A) : M A := fun s => (Returns a, s).

Definition bind {A B : Type} (m : M A) (k : A -> M B) : M B :=
  fun s =>
    match m s with
    | (Returns a, s') => k a s'
    | (Throws e, s') => (Throws e, s')
    end.

(** [try { body } catch (error) { handler }]: effects performed by the body
    before it threw are kept. *)
Definition try_catch {A : Type} (body : M A) (handler : Error -> M A) : M A :=
  fun s =>
    match body s with
    | (Returns a, s') => (Returns a, s')
    | (Throws e, s') => handler e s'
    end.

Declare Scope js_scope.
Delimit Scope js_scope with js.
Notation "x <- c ;; k" := (bind c (fun x => k))
  (at level 100, c at next level, right associativity) : js_scope.
Notation "c ;;; k" := (bind c (fun _ => k))
  (at level 100, right associativity) : js_scope.
Local Open Scope js_scope.

Definition result_of {A : Type} (r : Outcome A * State) : Outcome A := fst r.
Definition state_of {A : Type} (r : Outcome A * State) : State := snd r.

Definition console_log (msg : string) (arg : LogArg) : M unit :=
  fun s => (Returns tt, emit (Console_log msg arg) s).

Definition console_error (msg : string) (err : Error) : M unit :=
  fun s => (Returns tt, emit (Console_error msg err) s).

(** ** Environment

    What the world outside the module answers.  Each answer may depend on
    the state at the time of the call. *)
Record Env : Type := {
  Platform_OS : string;
  getPermissionsAsync_answer : State -> Outcome PermissionStatus;
  requestPermissionsAsync_answer : State -> Outcome PermissionStatus;
  getExpoPushTokenAsync_answer : State -> Outcome string;
  scheduleNotificationAsync_answer : State -> NotificationRequestInput -> Outcome string;
  upsertUserProfile_answer : State -> UserProfileFields -> Outcome unit;
  createNotification_answer : State -> NotificationFields -> Outcome unit;
  clock : State -> Z
}.

(** The registry without the handle numbered [i]. *)
Definition remove_handle (i : nat) (l : list Subscription) : list Subscription :=
  filter (fun x => sub_id x <> i) l.

Definition is_kind (kind : ListenerKind) (sub : Subscription) : bool :=
  match sub_kind sub, kind with
  | ReceivedListener, ReceivedListener | ResponseListener, ResponseListener => true
  | _, _ => false
  end.

(** Number of registered listeners of a kind. *)
Fixpoint count_listeners (kind : ListenerKind) (l : list Subscription) : nat :=
  match l with
  | [] => 0
  | sub :: rest => (if is_kind kind sub then 1 else 0) + count_listeners kind rest
  end.

Section NotificationModule.

Variable env : Env.

(** ** Calls into the platform notification centre *)

Definition getPermissionsAsync : M PermissionStatus :=
  fun s => (getPermissionsAsync_answer env s, emit Call_getPermissionsAsync s).

Definition requestPermissionsAsync : M PermissionStatus :=
  fun s => (requestPermissionsAsync_answer env s, emit Call_requestPermissionsAsync s).

Definition getExpoPushTokenAsync : M string :=
  fun s => (getExpoPushTokenAsync_answer env s, emit Call_getExpoPushTokenAsync s).

Definition scheduleNotificationAsync (req : NotificationRequestInput) : M string :=
  fun s => (scheduleNotificationAsync_answer env s req,
            emit (Call_scheduleNotificationAsync req) s).

(** Registering a listener hands back a fresh subscription handle and adds
    it to the platform's registry. *)
Definition add_listener (kind : ListenerKind) (call : nat -> Event) : M Subscription :=
  fun s =>
    let sub := {| sub_id := next_subscription s; sub_kind := kind |} in
    (Returns sub,
     set_subscriptions (subscriptions s ++ [sub]) (S (next_subscription s))
       (emit (call (next_subscription s)) s)).

Definition addNotificationReceivedListener : M Subscription :=
  add_listener ReceivedListener Call_addNotificationReceivedListener.

Definition addNotificationResponseReceivedListener : M Subscription :=
  add_listener ResponseListener Call_addNotificationResponseReceivedListener.

(** Removing a subscription drops its handle from the registry; removing a
    handle that is no longer registered leaves the registry as it is. *)
Definition removeNotificationSubscription (sub : Subscription) : M unit :=
  fun s =>
    (Returns tt,
     set_subscriptions
       (remove_handle (sub_id sub) (subscriptions s))
       (next_subscription s)
       (emit (Call_removeNotificationSubscription (sub_id sub)) s)).

(** ** Calls into the database layer *)

(** Modelled from the spec: [upsertUserProfile] of [./database] is not among
    the sources.  It is an insert-or-update keyed by the user identifier,
    idempotent under repeated identical input; the call may fail, in which
    case nothing is stored. *)
Definition upsertUserProfile (fields : UserProfileFields) : M unit :=
  fun s =>
    let s1 := emit (Call_upsertUserProfile fields) s in
    match upsertUserProfile_answer env s fields with
    | Returns _ => (Returns tt, set_profiles (<[user_id fields := fields]> (profiles s)) s1)
    | Throws e => (Throws e, s1)
    end.

(** Modelled from the spec: [createNotification] of [./database] is not among
    the sources.  It stores one new record for the given fields and assigns
    its [id] (unique), its [created_at] and [read = false]; the call may
    fail, in which case nothing is stored. *)
Definition createNotification (fields : NotificationFields) : M NotificationRecord :=
  fun s =>
    let s1 := emit (Call_createNotification fields) s in
    match createNotification_answer env s fields with
    | Returns _ =>
        let r := {| rec_id := length (notifications s);
                    rec_type := nf_type fields;
                    rec_title := nf_title fields;
                    rec_message := nf_message fields;
                    rec_data := nf_data fields;
                    rec_created_at := clock env s;
                    rec_read := false |} in
        (Returns r, set_notifications (notifications s ++ [r]) s1)
    | Throws e => (Throws e, s1)
    end.

(** ** The notification module *)

(** Request notification permissions. *)
Definition requestNotificationPermissions : M bool :=
  if String.eqb (Platform_OS env) "web" then
    ret false
  else
    try_catch
      (existingStatus <- getPermissionsAsync ;;
       finalStatus <-
         (if negb (is_granted existingStatus) then
            status <- requestPermissionsAsync ;; ret status
          else ret existingStatus) ;;
       ret (is_granted finalStatus))
      (fun error =>
         console_error "Error requesting notification permissions:" error ;;;
         ret false).

(** Get the push token and save it to the user profile. *)
Definition registerForPushNotifications (userId : string) : M (option string) :=
  try_catch
    (hasPermission <- requestNotificationPermissions ;;
     if negb hasPermission then
       console_log "Notification permissions not granted" LogNothing ;;;
       ret None
     else if String.eqb (Platform_OS env) "web" then
       ret None
     else
       token <- getExpoPushTokenAsync ;;
       upsertUserProfile {| user_id := userId;
                            fcm_token := token;
                            device_type := Platform_OS env;
                            app_version := "1.0.0" |} ;;;
       console_log "Push notification token registered:" (LogString token) ;;;
       ret (Some token))
    (fun error =>
       console_error "Error registering for push notifications:" error ;;;
       ret None).

(** Send a local notification. *)
Definition sendLocalNotification (data : PushNotificationData) : M unit :=
  try_catch
    (scheduleNotificationAsync
       {| req_content := {| content_title := pn_title data;
                            content_body := pn_message data;
                            content_data := pn_data data |};
          req_trigger := None |} ;;;
     createNotification {| nf_type := pn_type data;
                           nf_title := pn_title data;
                           nf_message := pn_message data;
                           nf_data := pn_data data |} ;;;
     ret tt)
    (fun error => console_error "Error sending local notification:" error).

(** The handler registered for notifications received in the foreground. *)
Definition onNotificationReceived (notification : Notification) : M unit :=
  console_log "Notification received:" (LogNotification notification).

(** The handler registered for taps on a notification. *)
Definition onNotificationResponse (response : NotificationResponse) : M unit :=
  console_log "Notification response:" (LogResponse response) ;;;
  let data := content_data (request_content (notification_request
                (response_notification response))) in
  if strict_eq_string (optional_get data "type") "signal"
     && truthy (optional_get data "signal_id")
  then console_log "Navigate to signal:" (LogValue (optional_get data "signal_id"))
  else ret tt.

(** What [setupNotificationListeners] closes over: its two subscriptions. *)
Record Attachment : Type := {
  notificationListener : Subscription;
  responseListener : Subscription
}.

Definition setupNotificationListeners : M Attachment :=
  notificationListener <- addNotificationReceivedListener ;;
  responseListener <- addNotificationResponseReceivedListener ;;
  ret {| notificationListener := notificationListener;
         responseListener := responseListener |}.

(** The function [setupNotificationListeners] returns. *)
Definition teardown (a : Attachment) : M unit :=
  removeNotificationSubscription (notificationListener a) ;;;
  removeNotificationSubscription (responseListener a).

Definition testData : PushNotificationData :=
  {| pn_type := signal;
     pn_title := "Test Signal Alert";
     pn_message := "This is a test notification from your trading app!";
     pn_data := JsObject [("signal_id", JsString "test-123");
                          ("pair", JsString "XAU/USD")] |}.

Definition sendTestNotification : M unit := sendLocalNotification testData.

End NotificationModule.

(** ** Reading traces *)

Definition is_getPermissions_call (e : Event) : bool :=
  match e with Call_getPermissionsAsync => true | _ => false end.

Definition is_requestPermissions_call (e : Event) : bool :=
  match e with Call_requestPermissionsAsync => true | _ => false end.

Definition is_token_call (e : Event) : bool :=
  match e with Call_getExpoPushTokenAsync => true | _ => false end.

Definition is_console (e : Event) : bool :=
  match e with Console_log _ _ | Console_error _ _ => true | _ => false end.

Fixpoint count_events (p : Event -> bool) (l : list Event) : nat :=
  match l with
  | [] => 0
  | e :: rest => (if p e then 1 else 0) + count_events p rest
  end.

(** The arguments of the [upsertUserProfile] calls of a trace, in order. *)
Fixpoint upsert_calls (l : list Event) : list UserProfileFields :=
  match l with
  | [] => []
  | Call_upsertUserProfile f :: rest => f :: upsert_calls rest
  | _ :: rest => upsert_calls rest
  end.

(** The arguments of the [createNotification] calls of a trace, in order. *)
Fixpoint create_calls (l : list Event) : list NotificationFields :=
  match l with
  | [] => []
  | Call_createNotification f :: rest => f :: create_calls rest
  | _ :: rest => create_calls rest
  end.

(** [s'] differs from [s] by the events [d] appended to the trace only. *)
Definition add_events (d : list Event) (s : State) : State :=
  {| trace := trace s ++ d;
     profiles := profiles s;
     notifications := notifications s;
     subscriptions := subscriptions s;
     next_subscription := next_subscription s |}.

(** Handles in the registry were all issued before [next_subscription]. *)
Definition registry_wf (s : State) : Prop :=
  Forall (fun x => sub_id x < next_subscription s) (subscriptions s).

(** Read flag of the stored record with identifier [i]. *)
Definition read_flag (i : nat) (s : State) : option bool :=
  rec_read <$> List.find (fun r => Nat.eqb (rec_id r) i) (notifications s).

(** The arguments [registerForPushNotifications] passes to the profile
    store for a user and a token. *)
Definition profile_fields (env : Env) (userId token : string) : UserProfileFields :=
  {| user_id := userId;
     fcm_token := token;
     device_type := Platform_OS env;
     app_version := "1.0.0" |}.

(** The arguments [sendLocalNotification] passes to the platform and to
    the notification store. *)
Definition display_request (data : PushNotificationData) : NotificationRequestInput :=
  {| req_content := {| content_title := pn_title data;
                       content_body := pn_message data;
                       content_data := pn_data data |};
     req_trigger := None |}.

Definition record_fields (data : PushNotificationData) : NotificationFields :=
  {| nf_type := pn_type data;
     nf_title := pn_title data;
     nf_message := pn_message data;
     nf_data := pn_data data |}.

Definition response_data (response : NotificationResponse) : JsValue :=
  content_data (request_content (notification_request (response_notification response))).

(** The console lines of [registerForPushNotifications]. *)
Definition not_granted_line : Event :=
  Console_log "Notification permissions not granted" LogNothing.

Definition failure_line (e : Error) : Event :=
  Console_error "Error registering for push notifications:" e.

Definition registered_line (token : string) : Event :=
  Console_log "Push notification token registered:" (LogString token).

(** The console line of [sendLocalNotification]. *)
Definition dispatch_failure_line (e : Error) : Event :=
  Console_error "Error sending local notification:" e.

(** The record the notification store creates in state [s] for [data]. *)
Definition created_record (env : Env) (data : PushNotificationData) (s : State)
  : NotificationRecord :=
  {| rec_id := length (notifications s);
     rec_type := pn_type data;
     rec_title := pn_title data;
     rec_message := pn_message data;
     rec_data := pn_data data;
     rec_created_at := clock env s;
     rec_read := false |}.

(** The two internal steps of [registerForPushNotifications] that follow a
    granted permission, and how each can fail in state [s]. *)
Inductive register_step_fails (env : Env) (userId : string) (s : State) : Error -> Prop :=
| token_fetch_fails e :
    result_of (requestNotificationPermissions env s) = Returns true ->
    getExpoPushTokenAsync_answer env (state_of (requestNotificationPermissions env s)) = Throws e ->
    register_step_fails env userId s e
| persistence_fails token e :
    result_of (requestNotificationPermissions env s) = Returns true ->
    getExpoPushTokenAsync_answer env (state_of (requestNotificationPermissions env s)) = Returns token ->
    upsertUserProfile_answer env
      (emit Call_getExpoPushTokenAsync (state_of (requestNotificationPermissions env s)))
      (profile_fields env userId token) = Throws e ->
    register_step_fails env userId s e.

(** ** The listener hub as the specification words it

    [attach(onReceived, onOpened)]: on a tap the hub hands the payload of the
    tapped notification, as it is, to the caller's [onOpened] and does
    nothing else with it.  Kept apart from the module's own handler, with
    which it is compared. *)
Definition spec_tap_handler (onOpened : JsValue -> M unit)
    (response : NotificationResponse) : M unit :=
  onOpened (response_data response).

(** ** The notification listing sheet *)

Module NotificationSheet.

Record Notification : Type := {
  id : string;
  type : NotificationType;
  title : string;
  message : string;
  timestamp : string;
  read : bool;
  reached : option nat
}.

(** The rows of the sheet: a constant of the component, rebuilt at every
    render. *)
Definition notifications : list Notification :=
  [ {| id := "1"; type := signal;
       title := "Signal Closed - Profit!";
       message := "XAU/USD BUY signal closed with +$245 profit";
       timestamp := "2 hours ago"; read := false; reached := Some 13 |};
    {| id := "2"; type := achievement;
       title := "Streak Achievement!";
       message := "You've hit a 5-day winning streak!";
       timestamp := "1 day ago"; read := false; reached := Some 14 |};
    {| id := "3"; type := signal;
       title := "New Signal Available";
       message := "XAG/USD SELL signal just published";
       timestamp := "2 days ago"; read := true; reached := Some 16 |};
    {| id := "4"; type := announcement;
       title := "Market Update";
       message := "Gold showing strong bullish momentum this week";
       timestamp := "3 days ago"; read := true; reached := Some 24 |};
    {| id := "5"; type := alert;
       title := "Stop Loss Hit";
       message := "XAG/USD position closed at stop loss";
       timestamp := "1 week ago"; read := true; reached := Some 50 |} ].

Definition type_name (t : NotificationType) : string :=
  match t with
  | signal => "signal"
  | achievement => "achievement"
  | announcement => "announcement"
  | alert => "alert"
  end.

Inductive Glyph : Type := TrendingUp | Award | Bell | AlertCircle.
Inductive Color : Type := primary | warning | secondary | error | textSecondary.

Definition getNotificationIcon (type : string) : Glyph * Color :=
  if String.eqb type "signal" then (TrendingUp, primary)
  else if String.eqb type "achievement" then (Award, warning)
  else if String.eqb type "announcement" then (Bell, secondary)
  else if String.eqb type "alert" then (AlertCircle, error)
  else (Bell, textSecondary).

Definition getTimeAgo (timestamp : string) : string := timestamp.

(** One rendered row.  The row is a touchable without a press handler. *)
Record Row : Type := {
  row_key : string;
  row_unread_style : bool;
  row_icon : Glyph * Color;
  row_title : string;
  row_message : string;
  row_time : string;
  row_reached : option nat;
  row_unread_dot : bool
}.

Definition render_row (notification : Notification) : Row :=
  {| row_key := id notification;
     row_unread_style := negb (read notification);
     row_icon := getNotificationIcon (type_name (type notification));
     row_title := title notification;
     row_message := message notification;
     row_time := getTimeAgo (timestamp notification);
     row_reached := reached notification;
     row_unread_dot := negb (read notification) |}.

Inductive Content : Type :=
| EmptyState
| Rows (rows : list Row).

(** What the modal shows; [None] while it is not visible. *)
Definition render (visible : bool) : option Content :=
  if visible then
    Some (if Nat.eqb (length notifications) 0 then EmptyState
          else Rows (map render_row notifications))
  else None.

(** What the user can do on the sheet. *)
Inductive Gesture : Type :=
| PressOverlay
| PressCloseButton
| RequestClose
| PressRow (key : string).

(** The handler each gesture runs: [onClose], or none at all on a row. *)
Definition on_gesture {A : Type} (onClose : A -> A) (g : Gesture) : A -> A :=
  match g with
  | PressOverlay | PressCloseButton | RequestClose => onClose
  | PressRow _ => fun a => a
  end.

(** The read flag the sheet shows for the row with the given key. *)
Definition shown_read (visible : bool) (key : string) : option bool :=
  match render visible with
  | Some (Rows rows) =>
      (fun r => negb (row_unread_dot r)) <$>
        List.find (fun r => String.eqb (row_key r) key) rows
  | _ => None
  end.

End NotificationSheet.

(** ** The subsystem as a whole

    The module state together with the one piece of screen state that
    concerns the sheet, and every operation that can run on them. *)

Record System : Type := {
  core : State;
  notificationVisible : bool
}.

Definition setNotificationVisible (v : bool) (sys : System) : System :=
  {| core := core sys; notificationVisible := v |}.

Inductive Operation : Type :=
| Op_requestNotificationPermissions
| Op_registerForPushNotifications (userId : string)
| Op_sendLocalNotification (data : PushNotificationData)
| Op_sendTestNotification
| Op_setupNotificationListeners
| Op_teardown (a : Attachment)
| Op_notificationReceived (notification : Notification)
| Op_notificationResponse (response : NotificationResponse)
| Op_pressBell
| Op_sheetGesture (g : NotificationSheet.Gesture).

(** Run [m] once for every registered listener of the given kind. *)
Fixpoint deliver (kind : ListenerKind) (m : M unit) (subs : list Subscription) : M unit :=
  match subs with
  | [] => ret tt
  | sub :: rest =>
      if is_kind kind sub then m ;;; deliver kind m rest
      else deliver kind m rest
  end.

Definition run_core {A : Type} (m : M A) (sys : System) : System :=
  {| core := state_of (m (core sys)); notificationVisible := notificationVisible sys |}.

Definition perform (env : Env) (op : Operation) (sys : System) : System :=
  match op with
  | Op_requestNotificationPermissions => run_core (requestNotificationPermissions env) sys
  | Op_registerForPushNotifications userId => run_core (registerForPushNotifications env userId) sys
  | Op_sendLocalNotification data => run_core (sendLocalNotification env data) sys
  | Op_sendTestNotification => run_core (sendTestNotification env) sys
  | Op_setupNotificationListeners => run_core setupNotificationListeners sys
  | Op_teardown a => run_core (teardown a) sys
  | Op_notificationReceived notification =>
      run_core (fun s => deliver ReceivedListener (onNotificationReceived notification)
                           (subscriptions s) s) sys
  | Op_notificationResponse response =>
      run_core (fun s => deliver ResponseListener (onNotificationResponse response)
                           (subscriptions s) s) sys
  | Op_pressBell => setNotificationVisible true sys
  | Op_sheetGesture g => NotificationSheet.on_gesture (setNotificationVisible false) g sys
  end.

Definition perform_all (env : Env) (ops : list Operation) (sys : System) : System :=
  fold_left (fun acc op => perform env op acc) ops sys.

(** ** Concrete environments *)

Definition constant_env (os : string)
    (existing requested : Outcome PermissionStatus)
    (token display : Outcome string) (upsert create : Outcome unit) : Env :=
  {| Platform_OS := os;
     getPermissionsAsync_answer := fun _ => existing;
     requestPermissionsAsync_answer := fun _ => requested;
     getExpoPushTokenAsync_answer := fun _ => token;
     scheduleNotificationAsync_answer := fun _ _ => display;
     upsertUserProfile_answer := fun _ _ => upsert;
     createNotification_answer := fun _ _ => create;
     clock := fun s => Z.of_nat (length (trace s)) |}.

(** A phone on which everything works; permission is asked and given. *)
Definition phone_env : Env :=
  constant_env "ios" (Returns undetermined) (Returns granted)
    (Returns "ExponentPushToken[abc]") (Returns "notification-1")
    (Returns tt) (Returns tt).

(** A browser. *)
Definition browser_env : Env :=
  constant_env "web" (Returns granted) (Returns granted)
    (Returns "ExponentPushToken[abc]") (Returns "notification-1")
    (Returns tt) (Returns tt).

(** A phone whose user refuses the permission. *)
Definition refusing_env : Env :=
  constant_env "android" (Returns undetermined) (Returns denied)
    (Returns "ExponentPushToken[abc]") (Returns "notification-1")
    (Returns tt) (Returns tt).

(** A phone whose permission API throws when asked. *)
Definition broken_permission_env : Env :=
  constant_env "android" (Returns undetermined) (Throws "permission module unavailable")
    (Returns "ExponentPushToken[abc]") (Returns "notification-1")
    (Returns tt) (Returns tt).

(** A phone on which the profile store is down. *)
Definition profile_store_down_env : Env :=
  constant_env "ios" (Returns granted) (Returns granted)
    (Returns "ExponentPushToken[abc]") (Returns "notification-1")
    (Throws "profile store unreachable") (Returns tt).

(** A phone on which the platform refuses to display notifications. *)
Definition display_fails_env : Env :=
  constant_env "ios" (Returns granted) (Returns granted)
    (Returns "ExponentPushToken[abc]") (Throws "display refused")
    (Returns tt) (Returns tt).

(** A tap on a notification with the given payload. *)
Definition tap_on (payload : JsValue) : NotificationResponse :=
  {| response_notification :=
       {| notification_request :=
            {| request_content :=
                 {| content_title := "New Signal Available";
                    content_body := "XAG/USD SELL signal just published";
                    content_data := payload |} |} |} |}.

Definition signal_payload : JsValue :=
  JsObject [("type", JsString "signal"); ("signal_id", JsString "sig-42")].

Definition signal_tap : NotificationResponse := tap_on signal_payload.

(** What the tap handler of the module writes for a response. *)
Definition tap_lines (response : NotificationResponse) : list Event :=
  Console_log "Notification response:" (LogResponse response) ::
  (if strict_eq_string (optional_get (response_data response) "type") "signal"
      && truthy (optional_get (response_data response) "signal_id")
   then [Console_log "Navigate to signal:"
           (LogValue (optional_get (response_data response) "signal_id"))]
   else []).

(** A handler a caller of the hub could supply: it reports the payload it
    was handed. *)
Definition reporting_onOpened (payload : JsValue) : M unit :=
  console_log "onOpened" (LogValue payload).

(** On a native platform the gate has four possible courses, each with its
    own trace. *)
Inductive gate_course (env : Env) (s : State) : bool -> list Event -> Prop :=
| already_granted :
    getPermissionsAsync_answer env s = Returns granted ->
    gate_course env s true [Call_getPermissionsAsync]
| asked st st' :
    getPermissionsAsync_answer env s = Returns st ->
    st <> granted ->
    requestPermissionsAsync_answer env (emit Call_getPermissionsAsync s) = Returns st' ->
    gate_course env s (is_granted st') [Call_getPermissionsAsync; Call_requestPermissionsAsync]
| query_threw e :
    getPermissionsAsync_answer env s = Throws e ->
    gate_course env s false
      [Call_getPermissionsAsync;
       Console_error "Error requesting notification permissions:" e]
| request_threw st e :
    getPermissionsAsync_answer env s = Returns st ->
    st <> granted ->
    requestPermissionsAsync_answer env (emit Call_getPermissionsAsync s) = Throws e ->
    gate_course env s false
      [Call_getPermissionsAsync; Call_requestPermissionsAsync;
       Console_error "Error requesting notification permissions:" e].

(** The underlying permission API raises [e] during a run of the gate
    started in [s]: either the query does, or the query reports a status
    other than granted and the interactive request does. *)
Definition permission_api_throws (env : Env) (s : State) (e : Error) : Prop :=
  getPermissionsAsync_answer env s = Throws e
  \/ exists st, getPermissionsAsync_answer env s = Returns st /\ st <> granted
               /\ requestPermissionsAsync_answer env (emit Call_getPermissionsAsync s) = Throws e.

(** The registry and its counter are the same in [s] and [s']. *)
Definition same_registry (s s' : State) : Prop :=
  subscriptions s' = subscriptions s /\ next_subscription s' = next_subscription s.

(** The store of [s'] is the store of [s] followed by records that are all
    unread. *)
Definition grows_unread (s s' : State) : Prop :=
  exists fresh,
    notifications s' = notifications s ++ fresh
    /\ Forall (fun r => rec_read r = false) fresh.

(** A store holding one record that the user has read. *)
Definition read_record : NotificationRecord :=
  {| rec_id := 0;
     rec_type := announcement;
     rec_title := "Market Update";
     rec_message := "Gold showing strong bullish momentum this week";
     rec_data := JsUndefined;
     rec_created_at := 0;
     rec_read := true |}.

Definition system_with_read_record : System :=
  {| core := set_notifications [read_record] initial_state;
     notificationVisible := true |}.

(** A session: permission, registration, listeners, two notifications, a
    delivery and a tap, the sheet opened, a row pressed, the sheet closed
    and opened again. *)
Definition session : list Operation :=
  [Op_requestNotificationPermissions;
   Op_registerForPushNotifications "user-1";
   Op_setupNotificationListeners;
   Op_sendTestNotification;
   Op_sendLocalNotification testData;
   Op_notificationReceived (response_notification signal_tap);
   Op_notificationResponse signal_tap;
   Op_pressBell;
   Op_sheetGesture (NotificationSheet.PressRow "1");
   Op_sheetGesture NotificationSheet.PressCloseButton;
   Op_pressBell].

(** ** The chart page of the home screen *)

Definition double_quote : string := String (Ascii.ascii_of_nat 34) EmptyString.
Definition newline : string := String (Ascii.ascii_of_nat 10) EmptyString.

(** [s.replace(pat, rep)] with a string pattern: the first occurrence of
    [pat] in [s], if any, is replaced by [rep]. *)
Fixpoint replace_first (pat rep s : string) : string :=
  if String.prefix pat s then
    String.append rep (String.substring (String.length pat) (String.length s) s)
  else
    match s with
    | EmptyString => EmptyString
    | String c rest => String c (replace_first pat rep rest)
    end.

(** The two literal parts of the template of [getTradingViewHTML], before
    and after the interpolated symbol. *)
Definition chart_page_head : string :=
  String.concat EmptyString
   [
    newline; "    <html>"; newline; "      <body style="; double_quote;
    "margin:0;padding:0;"; double_quote; ">"; newline; "        <iframe src=";
    double_quote;
    "https://s.tradingview.com/widgetembed/?frameElementId=tradingview_f9b65&symbol="
   ].

Definition chart_page_tail : string :=
  String.concat EmptyString
   [
    "&interval=60&hidesidetoolbar=1&symboledit=1&saveimage=1&toolbarbg=f1f3f6&studies=[]&theme=light&style=1&timezone=exchange";
    double_quote; " style="; double_quote; "width:100%;height:100%;border:none;";
    double_quote; "></iframe>"; newline; "      </body>"; newline; "    </html>";
    newline; "  "
   ].

Definition getTradingViewHTML (symbol : string) : string :=
  String.append chart_page_head
    (String.append (replace_first "/" EmptyString symbol) chart_page_tail).

(** Whether the character [c] occurs in [s]. *)
Fixpoint occurs (c : Ascii.ascii) (s : string) : bool :=
  match s with
  | EmptyString => false
  | String c' rest => Ascii.eqb c c' || occurs c rest
  end.

Definition slash : Ascii.ascii := Ascii.ascii_of_nat 47.

(** ** More ways of reading traces and payloads *)

Definition is_schedule_call (e : Event) : bool :=
  match e with Call_scheduleNotificationAsync _ => true | _ => false end.

(** The values JavaScript treats as false. *)
Inductive falsy : JsValue -> Prop :=
| falsy_undefined : falsy JsUndefined
| falsy_null : falsy JsNull
| falsy_false : falsy (JsBool false)
| falsy_zero : falsy (JsNumber 0)
| falsy_empty : falsy (JsString EmptyString).

(** The response the platform hands to the tap handler when the user taps
    a notification displayed for the request [req]. *)
Definition tap_on_displayed (req : NotificationRequestInput) : NotificationResponse :=
  {| response_notification :=
       {| notification_request := {| request_content := req_content req |} |} |}.

(** A signal whose identifier is the number zero. *)
Definition zero_id_tap : NotificationResponse :=
  tap_on (JsObject [("type", JsString "signal"); ("signal_id", JsNumber 0)]).

(** A phone on which permission was given earlier. *)
Definition granted_phone_env : Env :=
  constant_env "android" (Returns granted) (Returns denied)
    (Returns "ExponentPushToken[abc]") (Returns "notification-1")
    (Returns tt) (Returns tt).

(** * Properties *)

(** ** Equations of the monad *)

Lemma bind_returns {A B : Type} (m : M A) (k : A -> M B) s a s' :
  m s = (Returns a, s') -> bind m k s = k a s'.
Proof. intros H. unfold bind. now rewrite H. Qed.

Lemma bind_throws {A B : Type} (m : M A) (k : A -> M B) s e s' :
  m s = (Throws e, s') -> bind m k s = (Throws e, s').
Proof. intros H. unfold bind. now rewrite H. Qed.

Lemma try_catch_returns {A : Type} (m : M A) h s a s' :
  m s = (Returns a, s') -> try_catch m h s = (Returns a, s').
Proof. intros H. unfold try_catch. now rewrite H. Qed.

Lemma try_catch_throws {A : Type} (m : M A) h s e s' :
  m s = (Throws e, s') -> try_catch m h s = h e s'.
Proof. intros H. unfold try_catch. now rewrite H. Qed.

(** ** Bookkeeping on states and traces *)

Lemma emit_add_events e s : emit e s = add_events [e] s.
Proof. reflexivity. Qed.

Lemma add_events_nil s : add_events [] s = s.
Proof. destruct s. unfold add_events. simpl. now rewrite app_nil_r. Qed.

Lemma add_events_app d1 d2 s :
  add_events d2 (add_events d1 s) = add_events (d1 ++ d2) s.
Proof. unfold add_events. simpl. now rewrite app_assoc. Qed.

Lemma count_events_app p l1 l2 :
  count_events p (l1 ++ l2) = count_events p l1 + count_events p l2.
Proof. induction l1 as [|e l1 IH]; simpl; [reflexivity | rewrite IH; lia]. Qed.

Lemma upsert_calls_app l1 l2 :
  upsert_calls (l1 ++ l2) = upsert_calls l1 ++ upsert_calls l2.
Proof.
  induction l1 as [|e l1 IH]; simpl; [reflexivity|].
  destruct e; simpl; now rewrite ?IH.
Qed.


(** ** The permission gate *)

Section PermissionGate.

Variable env : Env.

Lemma web_eqb_false : Platform_OS env <> "web" -> String.eqb (Platform_OS env) "web" = false.
Proof. intros H. now apply String.eqb_neq. Qed.

Lemma gate_native s :
  Platform_OS env <> "web" ->
  exists b d, requestNotificationPermissions env s = (Returns b, add_events d s)
              /\ gate_course env s b d.
Proof.
  intros Hos. unfold requestNotificationPermissions.
  rewrite (web_eqb_false Hos).
  unfold try_catch, bind, getPermissionsAsync, requestPermissionsAsync, ret, console_error.
  destruct (getPermissionsAsync_answer env s) as [st|e] eqn:Hget.
  - destruct st; simpl.
    + exists true, [Call_getPermissionsAsync]. split; [reflexivity|now constructor].
    + destruct (requestPermissionsAsync_answer env (emit Call_getPermissionsAsync s))
        as [st'|e] eqn:Hreq.
      * exists (is_granted st'), [Call_getPermissionsAsync; Call_requestPermissionsAsync].
        split; [|now apply (asked env s denied st')].
        rewrite !emit_add_events, add_events_app. reflexivity.
      * eexists false, _. split; [|now apply (request_threw env s denied e)].
        rewrite !emit_add_events, !add_events_app. reflexivity.
    + destruct (requestPermissionsAsync_answer env (emit Call_getPermissionsAsync s))
        as [st'|e] eqn:Hreq.
      * exists (is_granted st'), [Call_getPermissionsAsync; Call_requestPermissionsAsync].
        split; [|now apply (asked env s undetermined st')].
        rewrite !emit_add_events, add_events_app. reflexivity.
      * eexists false, _. split; [|now apply (request_threw env s undetermined e)].
        rewrite !emit_add_events, !add_events_app. reflexivity.
  - eexists false, _. split; [|now apply (query_threw env s e)].
    rewrite !emit_add_events, !add_events_app. reflexivity.
Qed.

Lemma gate_web s :
  Platform_OS env = "web" -> requestNotificationPermissions env s = (Returns false, s).
Proof.
  intros Hos. unfold requestNotificationPermissions. now rewrite Hos.
Qed.

(** The gate never throws and only ever appends permission calls and
    console lines to the trace. *)
Lemma gate_total s :
  exists b d, requestNotificationPermissions env s = (Returns b, add_events d s)
              /\ count_events is_token_call d = 0
              /\ upsert_calls d = []
              /\ create_calls d = [].
Proof.
  destruct (String.eqb_spec (Platform_OS env) "web") as [Hweb|Hnat].
  - exists false, []. rewrite add_events_nil. split; [now apply gate_web|easy].
  - destruct (gate_native s Hnat) as (b & d & Hrun & Hc).
    exists b, d. split; [exact Hrun|]. destruct Hc; easy.
Qed.

Lemma gate_true_native s :
  result_of (requestNotificationPermissions env s) = Returns true ->
  Platform_OS env <> "web".
Proof.
  intros H Hweb. rewrite (gate_web s Hweb) in H. discriminate.
Qed.

End PermissionGate.

(** C5. On the web platform [requestNotificationPermissions] answers
    [false] (denied) whatever the environment would answer, and has no
    side effect: the state, trace included, is the one it started from, so
    the permission state is neither queried nor requested. *)
Theorem requestNotificationPermissions_web_denied (env : Env) (s : State) :
  Platform_OS env = "web" ->
  requestNotificationPermissions env s = (Returns false, s)
  /\ count_events is_getPermissions_call
       (trace (state_of (requestNotificationPermissions env s)))
     = count_events is_getPermissions_call (trace s)
  /\ count_events is_requestPermissions_call
       (trace (state_of (requestNotificationPermissions env s)))
     = count_events is_requestPermissions_call (trace s).
Proof.
  intros Hweb. rewrite (gate_web env s Hweb). simpl. auto.
Qed.

Lemma requestNotificationPermissions_web_denied_witness :
  Platform_OS browser_env = "web"
  /\ requestNotificationPermissions browser_env initial_state
     = (Returns false, initial_state).
Proof.
  split; [reflexivity|].
  apply (requestNotificationPermissions_web_denied browser_env initial_state).
  reflexivity.
Defined.

(** C6. On a native platform [requestNotificationPermissions] always
    returns a boolean (it never throws) and changes nothing but the trace.
    The trace grows by the query of the current permission state first, by
    at most one interactive request, issued exactly when the query reported
    a status other than granted, and, when the permission API raised an
    error, by the console line reporting that error, in which case the
    answer is [false]. *)
Theorem requestNotificationPermissions_native_fail_closed (env : Env) (s : State) :
  Platform_OS env <> "web" ->
  exists b d,
    requestNotificationPermissions env s = (Returns b, add_events d s)
    /\ gate_course env s b d
    /\ hd_error d = Some Call_getPermissionsAsync
    /\ count_events is_getPermissions_call d = 1
    /\ count_events is_requestPermissions_call d <= 1
    /\ (count_events is_requestPermissions_call d = 1 <->
        exists st, getPermissionsAsync_answer env s = Returns st /\ st <> granted)
    /\ (forall e, permission_api_throws env s e ->
        b = false
        /\ last d = Some (Console_error "Error requesting notification permissions:" e))
    /\ ((forall e, ~ permission_api_throws env s e) -> count_events is_console d = 0).
Proof.
  intros Hnat. destruct (gate_native env s Hnat) as (b & d & Hrun & Hc).
  exists b, d. split; [exact Hrun|]. split; [exact Hc|].
  destruct Hc as [Hget | st st' Hget Hst Hreq | e Hget | st e Hget Hst Hreq]; simpl;
    (split; [reflexivity|]); (split; [reflexivity|]); (split; [lia|]); split.
  - split; [discriminate|]. intros (st & Hget' & Hst). congruence.
  - split.
    + intros e [Hq | (st & Hget' & Hst & _)]; congruence.
    + reflexivity.
  - split; [|reflexivity]. intros _. now exists st.
  - split.
    + intros e [Hq | (st0 & Hget' & _ & Hreq')]; congruence.
    + reflexivity.
  - split; [discriminate|]. intros (st & Hget' & _). congruence.
  - split.
    + intros e' [Hq | (st & Hget' & _)]; [|congruence].
      split; [reflexivity|]. congruence.
    + intros H. exfalso. apply (H e). now left.
  - split; [|reflexivity]. intros _. now exists st.
  - split.
    + intros e' [Hq | (st0 & Hget' & _ & Hreq')]; [congruence|].
      split; [reflexivity|]. congruence.
    + intros H. exfalso. apply (H e). right. now exists st.
Qed.

Lemma requestNotificationPermissions_native_fail_closed_witness :
  Platform_OS broken_permission_env <> "web"
  /\ exists b d,
       requestNotificationPermissions broken_permission_env initial_state
       = (Returns b, add_events d initial_state)
       /\ b = false
       /\ count_events is_requestPermissions_call d <= 1.
Proof.
  split; [discriminate|].
  destruct (requestNotificationPermissions_native_fail_closed
              broken_permission_env initial_state ltac:(discriminate))
    as (b & d & Hrun & _ & _ & _ & Hle & _ & Herr & _).
  exists b, d. split; [exact Hrun|]. split; [|exact Hle].
  apply (Herr "permission module unavailable").
  right. exists undetermined. repeat split; discriminate.
Defined.

(** ** The token registrar *)

Section TokenRegistrar.

Variable env : Env.
Variable userId : string.

Ltac unfold_register :=
  unfold registerForPushNotifications, try_catch, bind, ret, console_log,
    console_error, getExpoPushTokenAsync, upsertUserProfile.

(** Permission refused: one console line and nothing else. *)
Lemma register_refused s s1 :
  requestNotificationPermissions env s = (Returns false, s1) ->
  registerForPushNotifications env userId s = (Returns None, emit not_granted_line s1).
Proof.
  intros Hgate. unfold_register. rewrite Hgate. reflexivity.
Qed.

(** Permission granted, the token service throws. *)
Lemma register_token_throws s s1 e :
  requestNotificationPermissions env s = (Returns true, s1) ->
  getExpoPushTokenAsync_answer env s1 = Throws e ->
  registerForPushNotifications env userId s
  = (Returns None, emit (failure_line e) (emit Call_getExpoPushTokenAsync s1)).
Proof.
  intros Hgate Htok.
  assert (Hnat : Platform_OS env <> "web").
  { apply (gate_true_native env s). now rewrite Hgate. }
  unfold_register. rewrite Hgate. simpl.
  rewrite (web_eqb_false env Hnat), Htok. reflexivity.
Qed.

(** Permission granted, token obtained, the profile store throws. *)
Lemma register_upsert_throws s s1 token e :
  requestNotificationPermissions env s = (Returns true, s1) ->
  getExpoPushTokenAsync_answer env s1 = Returns token ->
  upsertUserProfile_answer env (emit Call_getExpoPushTokenAsync s1)
    (profile_fields env userId token) = Throws e ->
  registerForPushNotifications env userId s
  = (Returns None,
     emit (failure_line e)
       (emit (Call_upsertUserProfile (profile_fields env userId token))
          (emit Call_getExpoPushTokenAsync s1))).
Proof.
  intros Hgate Htok Hup.
  assert (Hnat : Platform_OS env <> "web").
  { apply (gate_true_native env s). now rewrite Hgate. }
  unfold_register. rewrite Hgate. simpl.
  rewrite (web_eqb_false env Hnat), Htok.
  fold (profile_fields env userId token). rewrite Hup. reflexivity.
Qed.

(** Permission granted, token obtained and stored. *)
Lemma register_succeeds s s1 token u :
  requestNotificationPermissions env s = (Returns true, s1) ->
  getExpoPushTokenAsync_answer env s1 = Returns token ->
  upsertUserProfile_answer env (emit Call_getExpoPushTokenAsync s1)
    (profile_fields env userId token) = Returns u ->
  registerForPushNotifications env userId s
  = (Returns (Some token),
     emit (registered_line token)
       (set_profiles (<[userId := profile_fields env userId token]> (profiles s1))
          (emit (Call_upsertUserProfile (profile_fields env userId token))
             (emit Call_getExpoPushTokenAsync s1)))).
Proof.
  intros Hgate Htok Hup.
  assert (Hnat : Platform_OS env <> "web").
  { apply (gate_true_native env s). now rewrite Hgate. }
  unfold_register. rewrite Hgate. simpl.
  rewrite (web_eqb_false env Hnat), Htok.
  fold (profile_fields env userId token). rewrite Hup. reflexivity.
Qed.

(** The registrar returns in every state: no exception reaches the caller. *)
Lemma register_never_throws s :
  exists r, result_of (registerForPushNotifications env userId s) = Returns r.
Proof.
  destruct (gate_total env s) as (b & d & Hgate & _).
  destruct b.
  - destruct (getExpoPushTokenAsync_answer env (add_events d s)) as [token|e] eqn:Htok.
    + destruct (upsertUserProfile_answer env
                  (emit Call_getExpoPushTokenAsync (add_events d s))
                  (profile_fields env userId token)) as [u|e] eqn:Hup.
      * rewrite (register_succeeds _ _ _ _ Hgate Htok Hup). now eexists.
      * rewrite (register_upsert_throws _ _ _ _ Hgate Htok Hup). now eexists.
    + rewrite (register_token_throws _ _ _ Hgate Htok). now eexists.
  - rewrite (register_refused _ _ Hgate). now eexists.
Qed.

End TokenRegistrar.

(** C3. When the permission is granted and one of the two steps that
    follow fails (the token service throws, or the token is obtained and
    the profile store throws), [registerForPushNotifications] returns
    [null] to its caller instead of throwing; the failure is reported on
    the console and no profile is stored. *)
Theorem register_step_failure_yields_none (env : Env) (userId : string)
    (s : State) (e : Error) :
  register_step_fails env userId s e ->
  result_of (registerForPushNotifications env userId s) = Returns None
  /\ profiles (state_of (registerForPushNotifications env userId s)) = profiles s
  /\ last (trace (state_of (registerForPushNotifications env userId s)))
     = Some (failure_line e).
Proof.
  intros Hfail.
  destruct (gate_total env s) as (b & d & Hgate & _).
  destruct Hfail as [e Hres Htok | token e Hres Htok Hup];
    rewrite Hgate in Hres, Htok; simpl in Hres; injection Hres as ->.
  - rewrite (register_token_throws env userId s _ e Hgate Htok). simpl.
    split; [reflexivity|]. split; [reflexivity|].
    unfold state_of in *. simpl. now rewrite !last_snoc.
  - rewrite Hgate in Hup.
    rewrite (register_upsert_throws env userId s _ token e Hgate Htok Hup). simpl.
    split; [reflexivity|]. split; [reflexivity|].
    now rewrite !last_snoc.
Qed.

Lemma register_step_failure_yields_none_witness :
  register_step_fails profile_store_down_env "user-1" initial_state
    "profile store unreachable"
  /\ result_of (registerForPushNotifications profile_store_down_env "user-1" initial_state)
     = Returns None.
Proof.
  assert (H : register_step_fails profile_store_down_env "user-1" initial_state
                "profile store unreachable").
  { apply (persistence_fails _ _ _ "ExponentPushToken[abc]"); reflexivity. }
  split; [exact H|].
  apply (register_step_failure_yields_none _ _ _ _ H).
Defined.

(** C4. When the permission gate answers [false],
    [registerForPushNotifications] returns [null] right after the gate,
    having added one console line only: between its start and its end the
    trace shows no call of the push-token service and no profile write, and
    the profile store is unchanged. *)
Theorem register_not_granted_returns_none (env : Env) (userId : string) (s : State) :
  result_of (requestNotificationPermissions env s) = Returns false ->
  exists d,
    registerForPushNotifications env userId s = (Returns None, add_events d s)
    /\ add_events d s
       = emit not_granted_line (state_of (requestNotificationPermissions env s))
    /\ count_events is_token_call d = 0
    /\ upsert_calls d = []
    /\ profiles (state_of (registerForPushNotifications env userId s)) = profiles s.
Proof.
  intros Hres.
  destruct (gate_total env s) as (b & d & Hgate & Htok & Hup & _).
  rewrite Hgate in Hres. simpl in Hres. injection Hres as ->.
  exists (d ++ [not_granted_line]).
  rewrite (register_refused env userId s _ Hgate), Hgate. simpl.
  rewrite emit_add_events, add_events_app.
  split; [reflexivity|]. split; [reflexivity|].
  rewrite count_events_app, upsert_calls_app, Htok, Hup. simpl. auto.
Qed.

Lemma register_not_granted_returns_none_witness :
  result_of (requestNotificationPermissions refusing_env initial_state) = Returns false
  /\ exists d,
       registerForPushNotifications refusing_env "user-1" initial_state
       = (Returns None, add_events d initial_state)
       /\ count_events is_token_call d = 0
       /\ upsert_calls d = [].
Proof.
  split; [reflexivity|].
  destruct (register_not_granted_returns_none refusing_env "user-1" initial_state
              eq_refl) as (d & Hrun & _ & Htok & Hup & _).
  exists d. auto.
Defined.

(** C10. When [registerForPushNotifications] returns a token for a user,
    it has called [upsertUserProfile] exactly once, with [user_id] the
    user, [fcm_token] the returned token, [device_type] the platform OS and
    [app_version] the string 1.0.0, and the profile stored for the user
    carries these fields. *)
Theorem register_token_matches_profile (env : Env) (userId : string)
    (s : State) (token : string) :
  result_of (registerForPushNotifications env userId s) = Returns (Some token) ->
  exists d fields,
    trace (state_of (registerForPushNotifications env userId s)) = trace s ++ d
    /\ upsert_calls d = [fields]
    /\ profiles (state_of (registerForPushNotifications env userId s)) !! userId
       = Some fields
    /\ user_id fields = userId
    /\ fcm_token fields = token
    /\ device_type fields = Platform_OS env
    /\ app_version fields = "1.0.0".
Proof.
  intros Hres.
  destruct (gate_total env s) as (b & d & Hgate & _ & Hup0 & _).
  destruct b.
  - destruct (getExpoPushTokenAsync_answer env (add_events d s)) as [tok|e] eqn:Htok.
    + destruct (upsertUserProfile_answer env
                  (emit Call_getExpoPushTokenAsync (add_events d s))
                  (profile_fields env userId tok)) as [u|e] eqn:Hup.
      * rewrite (register_succeeds env userId s _ tok u Hgate Htok Hup) in Hres |- *.
        simpl in Hres. injection Hres as ->.
        exists (d ++ [Call_getExpoPushTokenAsync;
                      Call_upsertUserProfile (profile_fields env userId token);
                      registered_line token]),
               (profile_fields env userId token).
        simpl. split.
        { now rewrite <- !app_assoc. }
        split.
        { rewrite upsert_calls_app, Hup0. reflexivity. }
        split; [apply lookup_insert_eq|]. auto.
      * rewrite (register_upsert_throws env userId s _ tok e Hgate Htok Hup) in Hres.
        discriminate.
    + rewrite (register_token_throws env userId s _ e Hgate Htok) in Hres. discriminate.
  - rewrite (register_refused env userId s _ Hgate) in Hres. discriminate.
Qed.

Lemma register_token_matches_profile_witness :
  result_of (registerForPushNotifications phone_env "user-1" initial_state)
  = Returns (Some "ExponentPushToken[abc]")
  /\ exists d fields,
       trace (state_of (registerForPushNotifications phone_env "user-1" initial_state))
       = trace initial_state ++ d
       /\ upsert_calls d = [fields]
       /\ fcm_token fields = "ExponentPushToken[abc]"
       /\ device_type fields = "ios"
       /\ app_version fields = "1.0.0".
Proof.
  split; [reflexivity|].
  destruct (register_token_matches_profile phone_env "user-1" initial_state
              "ExponentPushToken[abc]" eq_refl)
    as (d & fields & Htrace & Hcalls & _ & _ & Htok & Hdev & Hver).
  exists d, fields. auto.
Defined.

(** ** The dispatcher *)

Section Dispatcher.

Variable env : Env.
Variable data : PushNotificationData.

Ltac unfold_dispatch :=
  unfold sendLocalNotification, try_catch, bind, ret, console_error,
    scheduleNotificationAsync, createNotification;
  fold (display_request data); fold (record_fields data).

(** The display call throws: the store is never called. *)
Lemma dispatch_display_throws s e :
  scheduleNotificationAsync_answer env s (display_request data) = Throws e ->
  sendLocalNotification env data s
  = (Returns tt,
     add_events [Call_scheduleNotificationAsync (display_request data);
                 dispatch_failure_line e] s).
Proof.
  intros Hshow. unfold_dispatch. rewrite Hshow.
  rewrite !emit_add_events, add_events_app. reflexivity.
Qed.

(** The display call returns, the store throws. *)
Lemma dispatch_store_throws s i e :
  scheduleNotificationAsync_answer env s (display_request data) = Returns i ->
  createNotification_answer env
    (emit (Call_scheduleNotificationAsync (display_request data)) s)
    (record_fields data) = Throws e ->
  sendLocalNotification env data s
  = (Returns tt,
     add_events [Call_scheduleNotificationAsync (display_request data);
                 Call_createNotification (record_fields data);
                 dispatch_failure_line e] s).
Proof.
  intros Hshow Hstore. unfold_dispatch. rewrite Hshow, Hstore.
  rewrite !emit_add_events, !add_events_app. reflexivity.
Qed.

(** Both calls return: one record is appended to the store. *)
Lemma dispatch_succeeds s i u :
  scheduleNotificationAsync_answer env s (display_request data) = Returns i ->
  createNotification_answer env
    (emit (Call_scheduleNotificationAsync (display_request data)) s)
    (record_fields data) = Returns u ->
  sendLocalNotification env data s
  = (Returns tt,
     set_notifications
       (notifications s ++
          [created_record env data
             (emit (Call_scheduleNotificationAsync (display_request data)) s)])
       (add_events [Call_scheduleNotificationAsync (display_request data);
                    Call_createNotification (record_fields data)] s)).
Proof.
  intros Hshow Hstore. unfold_dispatch. rewrite Hshow, Hstore.
  rewrite !emit_add_events, !add_events_app. reflexivity.
Qed.

End Dispatcher.

(** C1, as stated, fails: on a phone whose platform refuses to display the
    notification, dispatching the test notification calls the store not
    once but never, and no record is created. *)
Lemma dispatch_display_failure_skips_persistence :
  scheduleNotificationAsync_answer display_fails_env initial_state
    (display_request testData) = Throws "display refused"
  /\ create_calls
       (trace (state_of (sendLocalNotification display_fails_env testData initial_state)))
     = []
  /\ notifications
       (state_of (sendLocalNotification display_fails_env testData initial_state))
     = [].
Proof. repeat split. Qed.

(** C1, amended. [sendLocalNotification] calls the notification store
    exactly once, with the fields of its input, when the platform display
    call returns; if the store accepts the call, exactly one record is
    added, unread and carrying the input's type, title, message and data,
    and otherwise none.  When the display call throws, the store is not
    called and no record is added. *)
Theorem dispatch_persists_when_displayed (env : Env) (data : PushNotificationData)
    (s : State) :
  exists d,
    trace (state_of (sendLocalNotification env data s)) = trace s ++ d
    /\ match scheduleNotificationAsync_answer env s (display_request data) with
       | Returns _ =>
           create_calls d = [record_fields data]
           /\ match createNotification_answer env
                      (emit (Call_scheduleNotificationAsync (display_request data)) s)
                      (record_fields data) with
              | Returns _ =>
                  exists r,
                    notifications (state_of (sendLocalNotification env data s))
                    = notifications s ++ [r]
                    /\ rec_read r = false
                    /\ rec_type r = pn_type data
                    /\ rec_title r = pn_title data
                    /\ rec_message r = pn_message data
                    /\ rec_data r = pn_data data
              | Throws _ =>
                  notifications (state_of (sendLocalNotification env data s))
                  = notifications s
              end
       | Throws _ =>
           create_calls d = []
           /\ notifications (state_of (sendLocalNotification env data s))
              = notifications s
       end.
Proof.
  destruct (scheduleNotificationAsync_answer env s (display_request data))
    as [i|e] eqn:Hshow.
  - destruct (createNotification_answer env
                (emit (Call_scheduleNotificationAsync (display_request data)) s)
                (record_fields data)) as [u|e] eqn:Hstore.
    + rewrite (dispatch_succeeds env data s i u Hshow Hstore). simpl.
      eexists. split; [reflexivity|]. split; [reflexivity|].
      eexists. split; [reflexivity|]. simpl. auto.
    + rewrite (dispatch_store_throws env data s i e Hshow Hstore). simpl.
      eexists. split; [reflexivity|]. split; reflexivity.
  - rewrite (dispatch_display_throws env data s e Hshow). simpl.
    eexists. split; [reflexivity|]. split; reflexivity.
Qed.

(** C7. [sendLocalNotification] returns to its caller in every state and
    for every input, never throwing.  An error thrown by the display call,
    and an error thrown by the store call, is each caught and reported by
    one console line carrying that error, the last event of the run; a run
    without error writes nothing to the console. *)
Theorem dispatch_never_raises (env : Env) (data : PushNotificationData) (s : State) :
  result_of (sendLocalNotification env data s) = Returns tt
  /\ exists d,
       trace (state_of (sendLocalNotification env data s)) = trace s ++ d
       /\ match scheduleNotificationAsync_answer env s (display_request data) with
          | Throws e =>
              count_events is_console d = 1 /\ last d = Some (dispatch_failure_line e)
          | Returns _ =>
              match createNotification_answer env
                      (emit (Call_scheduleNotificationAsync (display_request data)) s)
                      (record_fields data) with
              | Throws e =>
                  count_events is_console d = 1
                  /\ last d = Some (dispatch_failure_line e)
              | Returns _ => count_events is_console d = 0
              end
          end.
Proof.
  destruct (scheduleNotificationAsync_answer env s (display_request data))
    as [i|e] eqn:Hshow.
  - destruct (createNotification_answer env
                (emit (Call_scheduleNotificationAsync (display_request data)) s)
                (record_fields data)) as [u|e] eqn:Hstore.
    + rewrite (dispatch_succeeds env data s i u Hshow Hstore). simpl.
      split; [reflexivity|]. eexists. split; reflexivity.
    + rewrite (dispatch_store_throws env data s i e Hshow Hstore). simpl.
      split; [reflexivity|]. eexists. split; [reflexivity|]. split; reflexivity.
  - rewrite (dispatch_display_throws env data s e Hshow). simpl.
    split; [reflexivity|]. eexists. split; [reflexivity|]. split; reflexivity.
Qed.

(** ** The listener hub *)

Lemma setup_runs s :
  setupNotificationListeners s
  = (Returns {| notificationListener :=
                  {| sub_id := next_subscription s; sub_kind := ReceivedListener |};
                responseListener :=
                  {| sub_id := S (next_subscription s); sub_kind := ResponseListener |} |},
     set_subscriptions
       (subscriptions s ++
          [{| sub_id := next_subscription s; sub_kind := ReceivedListener |};
           {| sub_id := S (next_subscription s); sub_kind := ResponseListener |}])
       (S (S (next_subscription s)))
       (add_events
          [Call_addNotificationReceivedListener (next_subscription s);
           Call_addNotificationResponseReceivedListener (S (next_subscription s))] s)).
Proof.
  unfold setupNotificationListeners, bind, addNotificationReceivedListener,
    addNotificationResponseReceivedListener, add_listener, ret, set_subscriptions,
    add_events, emit.
  simpl. now rewrite <- !app_assoc.
Qed.

Lemma teardown_runs a s :
  teardown a s
  = (Returns tt,
     set_subscriptions
       (remove_handle (sub_id (responseListener a))
          (remove_handle (sub_id (notificationListener a)) (subscriptions s)))
       (next_subscription s)
       (add_events
          [Call_removeNotificationSubscription (sub_id (notificationListener a));
           Call_removeNotificationSubscription (sub_id (responseListener a))] s)).
Proof.
  unfold teardown, bind, removeNotificationSubscription, set_subscriptions,
    add_events, emit.
  simpl. now rewrite <- !app_assoc.
Qed.

Lemma tap_runs response s :
  onNotificationResponse response s = (Returns tt, add_events (tap_lines response) s).
Proof.
  unfold onNotificationResponse, tap_lines, bind, console_log, ret.
  fold (response_data response).
  destruct (strict_eq_string _ _ && truthy _).
  - now rewrite !emit_add_events, add_events_app.
  - now rewrite emit_add_events.
Qed.

Lemma count_listeners_app kind l1 l2 :
  count_listeners kind (l1 ++ l2) = count_listeners kind l1 + count_listeners kind l2.
Proof. induction l1 as [|x l1 IH]; simpl; [reflexivity | rewrite IH; lia]. Qed.

Lemma remove_handle_idempotent i l :
  remove_handle i (remove_handle i l) = remove_handle i l.
Proof.
  unfold remove_handle. induction l as [|x l IH]; [reflexivity|].
  destruct (decide (sub_id x <> i)) as [Hx|Hx].
  - rewrite (filter_cons_True _ x l Hx), (filter_cons_True _ x _ Hx). now f_equal.
  - now rewrite (filter_cons_False _ x l Hx).
Qed.

Lemma remove_handle_comm i j l :
  remove_handle i (remove_handle j l) = remove_handle j (remove_handle i l).
Proof.
  unfold remove_handle. rewrite !list_filter_filter.
  apply list_filter_iff. tauto.
Qed.

Lemma remove_handle_absent i l :
  Forall (fun x => sub_id x <> i) l -> remove_handle i l = l.
Proof.
  unfold remove_handle. induction 1 as [|x l Hx _ IH]; [reflexivity|].
  rewrite (filter_cons_True _ x l Hx). now f_equal.
Qed.

Lemma remove_handle_gone i l :
  Forall (fun x => sub_id x <> i) (remove_handle i l).
Proof.
  apply Forall_forall. intros x Hx.
  apply list_elem_of_filter in Hx. tauto.
Qed.

Lemma remove_handle_keeps_gone i j l :
  Forall (fun x => sub_id x <> i) l ->
  Forall (fun x => sub_id x <> i) (remove_handle j l).
Proof.
  rewrite !Forall_forall. intros H x Hx.
  apply list_elem_of_filter in Hx. apply H. tauto.
Qed.

(** C2, as stated, fails.  For the handler [reporting_onOpened] and a tap
    on a signal notification, the hub of the specification runs the
    caller's handler on the payload; the module's tap handler never runs
    it, writes its own lines and reads [type] and [signal_id] out of the
    payload itself.  The two are different programs. *)
Lemma tap_is_not_forwarded :
  trace (state_of (spec_tap_handler reporting_onOpened signal_tap initial_state))
  = [Console_log "onOpened" (LogValue signal_payload)]
  /\ trace (state_of (onNotificationResponse signal_tap initial_state))
     = [Console_log "Notification response:" (LogResponse signal_tap);
        Console_log "Navigate to signal:" (LogValue (JsString "sig-42"))]
  /\ ~ (forall (onOpened : JsValue -> M unit) (response : NotificationResponse)
               (s : State),
          onNotificationResponse response s = spec_tap_handler onOpened response s).
Proof.
  split; [reflexivity|]. split; [reflexivity|].
  intros H. specialize (H reporting_onOpened signal_tap initial_state).
  apply (f_equal (fun r => length (trace (state_of r)))) in H.
  vm_compute in H. discriminate.
Qed.

(** C2, amended.  [setupNotificationListeners] takes no handler.  It
    registers exactly one received-while-foregrounded listener and one tap
    listener, under two distinct fresh handles.  The tap handler it
    registers changes nothing but the console: it writes the response and,
    when the payload's [type] is the string signal and its [signal_id] is
    truthy, a second line naming that [signal_id]. *)
Theorem setup_registers_its_own_handlers (s : State) (response : NotificationResponse) :
  exists a s1,
    setupNotificationListeners s = (Returns a, s1)
    /\ subscriptions s1 = subscriptions s ++ [notificationListener a; responseListener a]
    /\ sub_kind (notificationListener a) = ReceivedListener
    /\ sub_kind (responseListener a) = ResponseListener
    /\ sub_id (notificationListener a) <> sub_id (responseListener a)
    /\ count_listeners ReceivedListener (subscriptions s1)
       = S (count_listeners ReceivedListener (subscriptions s))
    /\ count_listeners ResponseListener (subscriptions s1)
       = S (count_listeners ResponseListener (subscriptions s))
    /\ forall t, onNotificationResponse response t
                 = (Returns tt, add_events (tap_lines response) t).
Proof.
  eexists _, _. split; [apply setup_runs|]. simpl.
  rewrite !count_listeners_app. simpl.
  repeat split; try lia. intros t. apply tap_runs.
Qed.

Lemma remove_handle_app i l1 l2 :
  remove_handle i (l1 ++ l2) = remove_handle i l1 ++ remove_handle i l2.
Proof. apply filter_app. Qed.

Lemma remove_handle_hit i x l :
  sub_id x = i -> remove_handle i (x :: l) = remove_handle i l.
Proof. intros H. apply filter_cons_False. tauto. Qed.

Lemma remove_handle_miss i x l :
  sub_id x <> i -> remove_handle i (x :: l) = x :: remove_handle i l.
Proof. intros H. now apply filter_cons_True. Qed.

Lemma registry_wf_fresh s i :
  registry_wf s -> next_subscription s <= i ->
  Forall (fun x => sub_id x <> i) (subscriptions s).
Proof.
  unfold registry_wf. intros Hwf Hle.
  eapply Forall_impl; [exact Hwf|]. simpl. intros x Hx. lia.
Qed.

(** Attaching and tearing down gives the registry back. *)
Lemma attach_teardown_registry s :
  registry_wf s ->
  remove_handle (S (next_subscription s))
    (remove_handle (next_subscription s)
       (subscriptions s ++
          [{| sub_id := next_subscription s; sub_kind := ReceivedListener |};
           {| sub_id := S (next_subscription s); sub_kind := ResponseListener |}]))
  = subscriptions s.
Proof.
  intros Hwf.
  rewrite !remove_handle_app.
  rewrite (remove_handle_absent (next_subscription s) (subscriptions s))
    by (apply registry_wf_fresh; [exact Hwf | lia]).
  rewrite (remove_handle_absent (S (next_subscription s)) (subscriptions s))
    by (apply registry_wf_fresh; [exact Hwf | lia]).
  rewrite remove_handle_hit by reflexivity.
  rewrite remove_handle_miss by (simpl; lia).
  rewrite remove_handle_hit by reflexivity.
  unfold remove_handle. rewrite !filter_nil. simpl. apply app_nil_r.
Qed.

(** Tearing down twice leaves the registry as tearing down once does,
    in any state and for any attachment. *)
Lemma teardown_registry_idempotent a s :
  subscriptions (state_of (teardown a (state_of (teardown a s))))
  = subscriptions (state_of (teardown a s)).
Proof.
  rewrite !teardown_runs. simpl.
  rewrite (remove_handle_comm (sub_id (notificationListener a))
             (sub_id (responseListener a))).
  now rewrite !remove_handle_idempotent.
Qed.

(** C8. The teardown of an attachment can be called twice: neither call
    throws, the second leaves the registry as the first left it, and
    afterwards the registry holds neither listener of the attachment and is
    the registry from before the attachment, so that nothing remains
    registered when nothing was before. *)
Theorem teardown_twice_leaves_no_subscription (s : State) :
  registry_wf s ->
  exists a s1 s2 s3,
    setupNotificationListeners s = (Returns a, s1)
    /\ teardown a s1 = (Returns tt, s2)
    /\ teardown a s2 = (Returns tt, s3)
    /\ subscriptions s3 = subscriptions s2
    /\ subscriptions s3 = subscriptions s
    /\ Forall (fun x => sub_id x <> sub_id (notificationListener a)
                        /\ sub_id x <> sub_id (responseListener a))
         (subscriptions s3)
    /\ count_listeners ReceivedListener (subscriptions s3)
       = count_listeners ReceivedListener (subscriptions s)
    /\ count_listeners ResponseListener (subscriptions s3)
       = count_listeners ResponseListener (subscriptions s).
Proof.
  intros Hwf.
  eexists _, _, _, _.
  split; [apply setup_runs|].
  split; [apply teardown_runs|].
  split; [apply teardown_runs|].
  simpl.
  rewrite (attach_teardown_registry s Hwf).
  assert (Hn : Forall (fun x => sub_id x <> next_subscription s) (subscriptions s))
    by (apply registry_wf_fresh; [exact Hwf | lia]).
  assert (Hsn : Forall (fun x => sub_id x <> S (next_subscription s)) (subscriptions s))
    by (apply registry_wf_fresh; [exact Hwf | lia]).
  rewrite (remove_handle_absent _ _ Hn), (remove_handle_absent _ _ Hsn).
  repeat split; try reflexivity.
  apply Forall_forall. intros x Hx.
  rewrite Forall_forall in Hn, Hsn. split; [now apply Hn | now apply Hsn].
Qed.

Lemma teardown_twice_leaves_no_subscription_witness :
  registry_wf initial_state
  /\ exists a s1 s2 s3,
       setupNotificationListeners initial_state = (Returns a, s1)
       /\ teardown a s1 = (Returns tt, s2)
       /\ teardown a s2 = (Returns tt, s3)
       /\ subscriptions s3 = [].
Proof.
  assert (Hwf : registry_wf initial_state) by constructor.
  split; [exact Hwf|].
  destruct (teardown_twice_leaves_no_subscription initial_state Hwf)
    as (a & s1 & s2 & s3 & H1 & H2 & H3 & _ & H5 & _).
  exists a, s1, s2, s3. auto.
Defined.

(** ** The read flag *)

Lemma grows_unread_refl s : grows_unread s s.
Proof. exists []. split; [now rewrite app_nil_r | constructor]. Qed.

Lemma grows_unread_trans s1 s2 s3 :
  grows_unread s1 s2 -> grows_unread s2 s3 -> grows_unread s1 s3.
Proof.
  intros (f1 & H1 & U1) (f2 & H2 & U2). exists (f1 ++ f2). split.
  - now rewrite H2, H1, app_assoc.
  - now apply Forall_app.
Qed.

Lemma grows_unread_same s s' : notifications s' = notifications s -> grows_unread s s'.
Proof. intros H. exists []. split; [now rewrite app_nil_r | constructor]. Qed.

Lemma find_in_prefix {A : Type} (f : A -> bool) (l fresh : list A) x :
  List.find f l = Some x -> List.find f (l ++ fresh) = Some x.
Proof.
  induction l as [|y l IH]; simpl; [discriminate|].
  destruct (f y); [trivial | exact IH].
Qed.

Lemma grows_unread_read_flag s s' i b :
  grows_unread s s' -> read_flag i s = Some b -> read_flag i s' = Some b.
Proof.
  intros (fresh & Hstore & _). unfold read_flag. rewrite Hstore.
  destruct (List.find _ (notifications s)) as [r|] eqn:Hfind; [|discriminate].
  now rewrite (find_in_prefix _ _ fresh r Hfind).
Qed.

Section ReadFlag.

Variable env : Env.

Lemma gate_grows s :
  grows_unread s (state_of (requestNotificationPermissions env s)).
Proof.
  destruct (gate_total env s) as (b & d & Hrun & _). rewrite Hrun.
  now apply grows_unread_same.
Qed.

Lemma register_grows userId s :
  grows_unread s (state_of (registerForPushNotifications env userId s)).
Proof.
  destruct (gate_total env s) as (b & d & Hgate & _).
  apply grows_unread_same.
  destruct b.
  - destruct (getExpoPushTokenAsync_answer env (add_events d s)) as [token|e] eqn:Htok.
    + destruct (upsertUserProfile_answer env
                  (emit Call_getExpoPushTokenAsync (add_events d s))
                  (profile_fields env userId token)) as [u|e] eqn:Hup.
      * now rewrite (register_succeeds env userId s _ token u Hgate Htok Hup).
      * now rewrite (register_upsert_throws env userId s _ token e Hgate Htok Hup).
    + now rewrite (register_token_throws env userId s _ e Hgate Htok).
  - now rewrite (register_refused env userId s _ Hgate).
Qed.

Lemma dispatch_grows data s :
  grows_unread s (state_of (sendLocalNotification env data s)).
Proof.
  destruct (scheduleNotificationAsync_answer env s (display_request data))
    as [i|e] eqn:Hshow.
  - destruct (createNotification_answer env
                (emit (Call_scheduleNotificationAsync (display_request data)) s)
                (record_fields data)) as [u|e] eqn:Hstore.
    + rewrite (dispatch_succeeds env data s i u Hshow Hstore).
      eexists. split; [reflexivity|]. now repeat constructor.
    + rewrite (dispatch_store_throws env data s i e Hshow Hstore).
      now apply grows_unread_same.
  - rewrite (dispatch_display_throws env data s e Hshow).
    now apply grows_unread_same.
Qed.

(** Delivering an event runs console-only handlers: only the trace grows. *)
Lemma deliver_logs kind (m : M unit) subs :
  (forall t, exists d, m t = (Returns tt, add_events d t)) ->
  forall s, exists d, deliver kind m subs s = (Returns tt, add_events d s).
Proof.
  intros Hm. induction subs as [|sub subs IH]; intros s; simpl.
  - exists []. now rewrite add_events_nil.
  - destruct (is_kind kind sub); [|apply IH].
    destruct (Hm s) as (d1 & H1). destruct (IH (add_events d1 s)) as (d2 & H2).
    exists (d1 ++ d2). rewrite (bind_returns _ _ _ _ _ H1), H2.
    now rewrite add_events_app.
Qed.

Lemma received_logs notification t :
  exists d, onNotificationReceived notification t = (Returns tt, add_events d t).
Proof. eexists. unfold onNotificationReceived, console_log. now rewrite emit_add_events. Qed.

Lemma perform_grows op sys :
  grows_unread (core sys) (core (perform env op sys))
  /\ (notificationVisible (perform env op sys) = notificationVisible sys
      \/ core (perform env op sys) = core sys).
Proof.
  destruct op; unfold perform, run_core, setNotificationVisible, sendTestNotification;
    cbn [core notificationVisible]; (split; [|auto]).
  - apply gate_grows.
  - apply register_grows.
  - apply dispatch_grows.
  - apply dispatch_grows.
  - rewrite setup_runs. now apply grows_unread_same.
  - rewrite teardown_runs. now apply grows_unread_same.
  - destruct (deliver_logs ReceivedListener (onNotificationReceived notification)
                (subscriptions (core sys)) (received_logs notification) (core sys))
      as (d & Hd).
    rewrite Hd. now apply grows_unread_same.
  - destruct (deliver_logs ResponseListener (onNotificationResponse response)
                (subscriptions (core sys))
                (fun t => ex_intro _ _ (tap_runs response t)) (core sys))
      as (d & Hd).
    rewrite Hd. now apply grows_unread_same.
  - apply grows_unread_refl.
  - destruct g; apply grows_unread_refl.
  - destruct g; simpl; auto.
Qed.

Lemma perform_all_grows ops sys :
  grows_unread (core sys) (core (perform_all env ops sys)).
Proof.
  unfold perform_all. revert sys.
  induction ops as [|op ops IH]; intros sys; simpl.
  - apply grows_unread_refl.
  - eapply grows_unread_trans; [apply (perform_grows op sys) | apply IH].
Qed.

End ReadFlag.

(** What the sheet shows as read does not depend on anything that can
    change: a row shown as read is shown as read whenever the sheet is
    visible. *)
Lemma shown_read_stable v v' key :
  NotificationSheet.shown_read v key = Some true -> v' = true ->
  NotificationSheet.shown_read v' key = Some true.
Proof.
  intros H ->. destruct v; [exact H|]. discriminate.
Qed.

(** C9. Under any sequence of operations of the subsystem (permission,
    registration, dispatch, listener set-up and teardown, delivery of a
    received notification or of a tap, opening the sheet, any gesture on
    the sheet) the notification store only grows at its end, by records
    created unread; every record already stored keeps its read flag, so a
    record that is read is never unread again, and none of these operations
    marks a record read.  A row the sheet shows as read is shown as read
    whenever the sheet is visible again. *)
Theorem read_flag_is_monotonic (env : Env) (ops : list Operation) (sys : System) :
  (exists fresh,
     notifications (core (perform_all env ops sys)) = notifications (core sys) ++ fresh
     /\ Forall (fun r => rec_read r = false) fresh)
  /\ (forall i b, read_flag i (core sys) = Some b ->
                  read_flag i (core (perform_all env ops sys)) = Some b)
  /\ (forall key,
        NotificationSheet.shown_read (notificationVisible sys) key = Some true ->
        notificationVisible (perform_all env ops sys) = true ->
        NotificationSheet.shown_read (notificationVisible (perform_all env ops sys)) key
        = Some true).
Proof.
  split; [apply perform_all_grows|]. split.
  - intros i b. apply grows_unread_read_flag, perform_all_grows.
  - intros key. apply shown_read_stable.
Qed.

Lemma read_flag_is_monotonic_witness :
  read_flag 0 (core system_with_read_record) = Some true
  /\ read_flag 0 (core (perform_all phone_env session system_with_read_record))
     = Some true
  /\ NotificationSheet.shown_read (notificationVisible system_with_read_record) "3"
     = Some true
  /\ NotificationSheet.shown_read
       (notificationVisible (perform_all phone_env session system_with_read_record)) "3"
     = Some true.
Proof.
  destruct (read_flag_is_monotonic phone_env session system_with_read_record)
    as (_ & Hflag & Hshown).
  split; [reflexivity|].
  split; [apply Hflag; reflexivity|].
  split; [reflexivity|].
  apply Hshown; reflexivity.
Defined.

(** ** Well-formed registries

    The hypothesis of the teardown property holds in every state the
    subsystem can reach from the initial one. *)

Lemma same_registry_wf s s' : same_registry s s' -> registry_wf s -> registry_wf s'.
Proof. unfold registry_wf. intros [Hsubs Hnext] Hwf. now rewrite Hsubs, Hnext. Qed.

Lemma add_events_same_registry d s : same_registry s (add_events d s).
Proof. split; reflexivity. Qed.

Section Registry.

Variable env : Env.

Lemma gate_same_registry s :
  same_registry s (state_of (requestNotificationPermissions env s)).
Proof.
  destruct (gate_total env s) as (b & d & Hrun & _). rewrite Hrun.
  apply add_events_same_registry.
Qed.

Lemma register_same_registry userId s :
  same_registry s (state_of (registerForPushNotifications env userId s)).
Proof.
  destruct (gate_total env s) as (b & d & Hgate & _).
  destruct b.
  - destruct (getExpoPushTokenAsync_answer env (add_events d s)) as [token|e] eqn:Htok.
    + destruct (upsertUserProfile_answer env
                  (emit Call_getExpoPushTokenAsync (add_events d s))
                  (profile_fields env userId token)) as [u|e] eqn:Hup.
      * rewrite (register_succeeds env userId s _ token u Hgate Htok Hup). now split.
      * rewrite (register_upsert_throws env userId s _ token e Hgate Htok Hup). now split.
    + rewrite (register_token_throws env userId s _ e Hgate Htok). now split.
  - rewrite (register_refused env userId s _ Hgate). now split.
Qed.

Lemma dispatch_same_registry data s :
  same_registry s (state_of (sendLocalNotification env data s)).
Proof.
  destruct (scheduleNotificationAsync_answer env s (display_request data))
    as [i|e] eqn:Hshow.
  - destruct (createNotification_answer env
                (emit (Call_scheduleNotificationAsync (display_request data)) s)
                (record_fields data)) as [u|e] eqn:Hstore.
    + rewrite (dispatch_succeeds env data s i u Hshow Hstore). now split.
    + rewrite (dispatch_store_throws env data s i e Hshow Hstore). now split.
  - rewrite (dispatch_display_throws env data s e Hshow). now split.
Qed.

Lemma setup_wf s : registry_wf s -> registry_wf (state_of (setupNotificationListeners s)).
Proof.
  unfold registry_wf. intros Hwf. rewrite setup_runs. simpl.
  apply Forall_app. split.
  - eapply Forall_impl; [exact Hwf|]. simpl. intros x Hx. lia.
  - repeat constructor; simpl; lia.
Qed.

Lemma remove_handle_wf n i l :
  Forall (fun x => sub_id x < n) l -> Forall (fun x => sub_id x < n) (remove_handle i l).
Proof.
  rewrite !Forall_forall. intros H x Hx.
  apply list_elem_of_filter in Hx. apply H. tauto.
Qed.

Lemma teardown_wf a s : registry_wf s -> registry_wf (state_of (teardown a s)).
Proof.
  unfold registry_wf. intros Hwf. rewrite teardown_runs. simpl.
  now apply remove_handle_wf, remove_handle_wf.
Qed.

Lemma perform_wf op sys :
  registry_wf (core sys) -> registry_wf (core (perform env op sys)).
Proof.
  intros Hwf.
  destruct op; unfold perform, run_core, setNotificationVisible, sendTestNotification;
    cbn [core notificationVisible].
  - exact (same_registry_wf _ _ (gate_same_registry _) Hwf).
  - exact (same_registry_wf _ _ (register_same_registry _ _) Hwf).
  - exact (same_registry_wf _ _ (dispatch_same_registry _ _) Hwf).
  - exact (same_registry_wf _ _ (dispatch_same_registry _ _) Hwf).
  - now apply setup_wf.
  - now apply teardown_wf.
  - destruct (deliver_logs ReceivedListener (onNotificationReceived notification)
                (subscriptions (core sys)) (received_logs notification) (core sys))
      as (d & Hd).
    rewrite Hd. exact (same_registry_wf _ _ (add_events_same_registry d _) Hwf).
  - destruct (deliver_logs ResponseListener (onNotificationResponse response)
                (subscriptions (core sys))
                (fun t => ex_intro _ _ (tap_runs response t)) (core sys))
      as (d & Hd).
    rewrite Hd. exact (same_registry_wf _ _ (add_events_same_registry d _) Hwf).
  - exact Hwf.
  - destruct g; exact Hwf.
Qed.

Lemma reachable_wf ops sys :
  registry_wf (core sys) -> registry_wf (core (perform_all env ops sys)).
Proof.
  unfold perform_all. revert sys.
  induction ops as [|op ops IH]; intros sys Hwf; simpl; [exact Hwf|].
  apply IH. now apply perform_wf.
Qed.

End Registry.

(** * Further properties of the code *)

(** ** The permission gate, continued *)

Lemma is_granted_true st : is_granted st = true <-> st = granted.
Proof. destruct st; simpl; split; congruence. Qed.

Lemma gate_course_calls env s b d :
  gate_course env s b d ->
  count_events is_getPermissions_call d = 1
  /\ count_events is_token_call d = 0
  /\ count_events is_schedule_call d = 0
  /\ upsert_calls d = []
  /\ create_calls d = [].
Proof. intros Hc. destruct Hc; simpl; auto. Qed.

(** X1. [requestNotificationPermissions] answers [true] exactly when the
    platform is not the web and the platform itself reported the status
    granted: either to the query, or to the interactive request made after
    a query that reported another status.  It never answers [true] on its
    own account. *)
Theorem gate_true_iff_platform_granted (env : Env) (s : State) :
  result_of (requestNotificationPermissions env s) = Returns true
  <-> Platform_OS env <> "web"
      /\ (getPermissionsAsync_answer env s = Returns granted
          \/ exists st,
               getPermissionsAsync_answer env s = Returns st
               /\ st <> granted
               /\ requestPermissionsAsync_answer env (emit Call_getPermissionsAsync s)
                  = Returns granted).
Proof.
  split.
  - intros Hres. pose proof (gate_true_native env s Hres) as Hnat.
    split; [exact Hnat|].
    destruct (gate_native env s Hnat) as (b & d & Hrun & Hc).
    rewrite Hrun in Hres. simpl in Hres. injection Hres as ->.
    inversion Hc as [Hget | st st' Hget Hst Hreq Hb | |]; subst.
    + now left.
    + right. exists st. repeat split; try assumption.
      apply is_granted_true in Hb. now subst.
  - intros (Hnat & Hgranted).
    destruct (gate_native env s Hnat) as (b & d & Hrun & Hc).
    rewrite Hrun. simpl. f_equal.
    destruct Hgranted as [Hget | (st & Hget & Hst & Hreq)];
      inversion Hc; subst; try congruence.
    assert (st' = granted) as -> by congruence. reflexivity.
Qed.

Lemma perform_all_app env ops1 ops2 sys :
  perform_all env (ops1 ++ ops2) sys = perform_all env ops2 (perform_all env ops1 sys).
Proof. unfold perform_all. apply fold_left_app. Qed.

Lemma gate_one_query env s :
  Platform_OS env <> "web" ->
  count_events is_getPermissions_call
    (trace (state_of (requestNotificationPermissions env s)))
  = S (count_events is_getPermissions_call (trace s)).
Proof.
  intros Hnat. destruct (gate_native env s Hnat) as (b & d & Hrun & Hc).
  rewrite Hrun. simpl. rewrite count_events_app.
  destruct (gate_course_calls env s b d Hc) as (-> & _). lia.
Qed.

(** X2. On a native platform nothing is remembered between calls of
    [requestNotificationPermissions]: [n] calls in a row query the
    platform's permission state [n] times, whatever the earlier calls
    answered. *)
Theorem gate_queries_on_every_call (env : Env) (n : nat) (sys : System) :
  Platform_OS env <> "web" ->
  count_events is_getPermissions_call
    (trace (core (perform_all env (repeat Op_requestNotificationPermissions n) sys)))
  = n + count_events is_getPermissions_call (trace (core sys)).
Proof.
  intros Hnat. revert sys. induction n as [|n IH]; intros sys; [reflexivity|].
  change (repeat Op_requestNotificationPermissions (S n))
    with ([Op_requestNotificationPermissions]
          ++ repeat Op_requestNotificationPermissions n).
  rewrite perform_all_app, IH.
  unfold perform_all. simpl. unfold run_core. cbn [core].
  rewrite (gate_one_query env (core sys) Hnat). lia.
Qed.

Lemma gate_queries_on_every_call_witness :
  Platform_OS granted_phone_env <> "web"
  /\ count_events is_getPermissions_call
       (trace (core (perform_all granted_phone_env
                       (repeat Op_requestNotificationPermissions 3)
                       {| core := initial_state; notificationVisible := false |})))
     = 3.
Proof.
  split; [discriminate|].
  apply (gate_queries_on_every_call granted_phone_env 3
           {| core := initial_state; notificationVisible := false |}).
  discriminate.
Defined.

(** ** The token registrar, continued *)

(** X3. On the web [registerForPushNotifications] returns [null] after
    writing the line that permissions were not granted, and does nothing
    else: the gate has already answered [false], so the function's own test
    for the web platform is never the one that returns. *)
Theorem register_on_web (env : Env) (userId : string) (s : State) :
  Platform_OS env = "web" ->
  registerForPushNotifications env userId s = (Returns None, emit not_granted_line s).
Proof.
  intros Hweb. apply register_refused. now apply gate_web.
Qed.

Lemma register_on_web_witness :
  Platform_OS browser_env = "web"
  /\ registerForPushNotifications browser_env "user-1" initial_state
     = (Returns None, emit not_granted_line initial_state).
Proof.
  split; [reflexivity|].
  apply (register_on_web browser_env "user-1" initial_state). reflexivity.
Defined.

(** X4. [registerForPushNotifications] returns a token exactly when all
    three steps succeed: the gate answers [true], the push-token service
    returns that token, and the profile store accepts the write.  In every
    other case it returns [null]. *)
Theorem register_returns_token_iff (env : Env) (userId : string) (s : State)
    (token : string) :
  (result_of (registerForPushNotifications env userId s) = Returns (Some token)
   <-> result_of (requestNotificationPermissions env s) = Returns true
       /\ getExpoPushTokenAsync_answer env (state_of (requestNotificationPermissions env s))
          = Returns token
       /\ upsertUserProfile_answer env
            (emit Call_getExpoPushTokenAsync
               (state_of (requestNotificationPermissions env s)))
            (profile_fields env userId token) = Returns tt)
  /\ (result_of (registerForPushNotifications env userId s) = Returns None
      \/ exists token', result_of (registerForPushNotifications env userId s)
                        = Returns (Some token')).
Proof.
  destruct (gate_total env s) as (b & d & Hgate & _).
  rewrite Hgate. simpl.
  destruct b.
  - destruct (getExpoPushTokenAsync_answer env (add_events d s)) as [tok|e] eqn:Htok.
    + destruct (upsertUserProfile_answer env
                  (emit Call_getExpoPushTokenAsync (add_events d s))
                  (profile_fields env userId tok)) as [u|e] eqn:Hup.
      * rewrite (register_succeeds env userId s _ tok u Hgate Htok Hup). simpl.
        split; [|right; now exists tok]. split.
        -- intros [= ->]. destruct u. auto.
        -- intros (_ & [= ->] & _). reflexivity.
      * rewrite (register_upsert_throws env userId s _ tok e Hgate Htok Hup). simpl.
        split; [|now left]. split; [discriminate|].
        intros (_ & [= ->] & Hok). congruence.
    + rewrite (register_token_throws env userId s _ e Hgate Htok). simpl.
      split; [|now left]. split; [discriminate|]. intros (_ & Hok & _). discriminate.
  - rewrite (register_refused env userId s _ Hgate). simpl.
    split; [|now left]. split; [discriminate|]. intros (Hok & _). discriminate.
Qed.


(** ** The dispatcher, continued *)

(** X6. Every run of [sendLocalNotification] starts by asking the platform
    to display the notification, once, with the input's title as title,
    its message as body, its data as payload and no trigger (immediately).
    It does so without consulting the permission state, and it never calls
    the push-token service or the profile store. *)
Theorem dispatch_displays_first (env : Env) (data : PushNotificationData) (s : State) :
  exists rest,
    trace (state_of (sendLocalNotification env data s))
    = trace s ++ Call_scheduleNotificationAsync
                   {| req_content := {| content_title := pn_title data;
                                        content_body := pn_message data;
                                        content_data := pn_data data |};
                      req_trigger := None |} :: rest
    /\ count_events is_schedule_call rest = 0
    /\ count_events is_getPermissions_call rest = 0
    /\ count_events is_requestPermissions_call rest = 0
    /\ count_events is_token_call rest = 0
    /\ upsert_calls rest = []
    /\ profiles (state_of (sendLocalNotification env data s)) = profiles s
    /\ subscriptions (state_of (sendLocalNotification env data s)) = subscriptions s.
Proof.
  fold (display_request data).
  destruct (scheduleNotificationAsync_answer env s (display_request data))
    as [i|e] eqn:Hshow.
  - destruct (createNotification_answer env
                (emit (Call_scheduleNotificationAsync (display_request data)) s)
                (record_fields data)) as [u|e] eqn:Hstore.
    + rewrite (dispatch_succeeds env data s i u Hshow Hstore). simpl.
      eexists. split; [reflexivity|]. simpl. auto 10.
    + rewrite (dispatch_store_throws env data s i e Hshow Hstore). simpl.
      eexists. split; [reflexivity|]. simpl. auto 10.
  - rewrite (dispatch_display_throws env data s e Hshow). simpl.
    eexists. split; [reflexivity|]. simpl. auto 10.
Qed.

(** ** The tap handler, continued *)

Lemma tap_lines_quiet response :
  strict_eq_string (optional_get (response_data response) "type") "signal"
  && truthy (optional_get (response_data response) "signal_id") = false ->
  tap_lines response = [Console_log "Notification response:" (LogResponse response)].
Proof. intros H. unfold tap_lines. now rewrite H. Qed.

(** X7. The tap handler decides on the payload alone.  When the payload of
    a notification sent by [sendLocalNotification] has no [type] property,
    a tap on it writes the response to the console and no navigation line,
    whatever the notification's own type is: for the test notification,
    whose type is signal and whose payload holds only [signal_id] and
    [pair], a tap is not followed to the signal. *)
Theorem tap_on_payload_without_type (data : PushNotificationData) (s : State) :
  optional_get (pn_data data) "type" = JsUndefined ->
  onNotificationResponse (tap_on_displayed (display_request data)) s
  = (Returns tt,
     add_events
       [Console_log "Notification response:"
          (LogResponse (tap_on_displayed (display_request data)))] s).
Proof.
  intros Hno. rewrite tap_runs, tap_lines_quiet; [reflexivity|].
  unfold response_data, tap_on_displayed, display_request. simpl.
  now rewrite Hno.
Qed.

Lemma tap_on_payload_without_type_witness :
  pn_type testData = signal
  /\ optional_get (pn_data testData) "type" = JsUndefined
  /\ onNotificationResponse (tap_on_displayed (display_request testData)) initial_state
     = (Returns tt,
        add_events
          [Console_log "Notification response:"
             (LogResponse (tap_on_displayed (display_request testData)))]
          initial_state).
Proof.
  split; [reflexivity|]. split; [reflexivity|].
  apply (tap_on_payload_without_type testData initial_state). reflexivity.
Defined.

(** X8. A signal identifier that JavaScript treats as false (absent, null,
    false, the number 0, the empty string) is not navigated to: the tap
    handler writes the response line only, even when the payload's type is
    signal. *)
Theorem tap_with_falsy_signal_id (response : NotificationResponse) (s : State) :
  falsy (optional_get (response_data response) "signal_id") ->
  onNotificationResponse response s
  = (Returns tt,
     add_events [Console_log "Notification response:" (LogResponse response)] s).
Proof.
  intros Hfalsy. rewrite tap_runs, tap_lines_quiet; [reflexivity|].
  destruct Hfalsy; simpl; apply andb_false_r.
Qed.

Lemma tap_with_falsy_signal_id_witness :
  optional_get (response_data zero_id_tap) "type" = JsString "signal"
  /\ falsy (optional_get (response_data zero_id_tap) "signal_id")
  /\ onNotificationResponse zero_id_tap initial_state
     = (Returns tt,
        add_events [Console_log "Notification response:" (LogResponse zero_id_tap)]
          initial_state).
Proof.
  assert (H : falsy (optional_get (response_data zero_id_tap) "signal_id"))
    by apply falsy_zero.
  split; [reflexivity|]. split; [exact H|].
  apply (tap_with_falsy_signal_id zero_id_tap initial_state H).
Defined.

(** ** The listener hub, continued *)

Lemma setup_adds_one kind s :
  count_listeners kind (subscriptions (state_of (setupNotificationListeners s)))
  = S (count_listeners kind (subscriptions s)).
Proof.
  rewrite setup_runs. simpl. rewrite count_listeners_app.
  destruct kind; simpl; lia.
Qed.

(** X9. [setupNotificationListeners] does not look at what is already
    registered: called [n] times without a teardown it leaves [n] more
    received listeners and [n] more tap listeners in the platform's
    registry. *)
Theorem repeated_setup_accumulates (env : Env) (n : nat) (kind : ListenerKind)
    (sys : System) :
  count_listeners kind
    (subscriptions (core (perform_all env (repeat Op_setupNotificationListeners n) sys)))
  = n + count_listeners kind (subscriptions (core sys)).
Proof.
  revert sys. induction n as [|n IH]; intros sys; [reflexivity|].
  change (repeat Op_setupNotificationListeners (S n))
    with ([Op_setupNotificationListeners] ++ repeat Op_setupNotificationListeners n).
  rewrite perform_all_app, IH.
  unfold perform_all. cbn [fold_left]. unfold perform, run_core. cbn [core].
  rewrite setup_adds_one. lia.
Qed.

(** X10. Each attachment tears down its own two listeners only.  After two
    attachments on a well-formed registry, the teardown of the first leaves
    the earlier listeners and both listeners of the second registered. *)
Theorem teardown_leaves_other_attachment (s : State) :
  registry_wf s ->
  exists a1 s1 a2 s2 s3,
    setupNotificationListeners s = (Returns a1, s1)
    /\ setupNotificationListeners s1 = (Returns a2, s2)
    /\ teardown a1 s2 = (Returns tt, s3)
    /\ subscriptions s3
       = subscriptions s ++ [notificationListener a2; responseListener a2].
Proof.
  intros Hwf.
  eexists _, _, _, _, _.
  split; [apply setup_runs|].
  split; [apply setup_runs|].
  split; [apply teardown_runs|].
  simpl.
  assert (Hn : Forall (fun x => sub_id x <> next_subscription s) (subscriptions s))
    by (apply registry_wf_fresh; [exact Hwf | lia]).
  assert (Hsn : Forall (fun x => sub_id x <> S (next_subscription s)) (subscriptions s))
    by (apply registry_wf_fresh; [exact Hwf | lia]).
  rewrite !remove_handle_app.
  rewrite (remove_handle_absent _ _ Hn), (remove_handle_absent _ _ Hsn).
  rewrite (remove_handle_hit (next_subscription s)) by reflexivity.
  rewrite (remove_handle_miss (next_subscription s)) by (simpl; lia).
  rewrite (remove_handle_hit (S (next_subscription s))) by reflexivity.
  rewrite (remove_handle_miss (next_subscription s)) by (simpl; lia).
  rewrite (remove_handle_miss (next_subscription s)) by (simpl; lia).
  rewrite (remove_handle_miss (S (next_subscription s))) by (simpl; lia).
  rewrite (remove_handle_miss (S (next_subscription s))) by (simpl; lia).
  unfold remove_handle. rewrite !filter_nil. simpl.
  now rewrite <- app_assoc.
Qed.

Lemma teardown_leaves_other_attachment_witness :
  registry_wf initial_state
  /\ exists a1 s1 a2 s2 s3,
       setupNotificationListeners initial_state = (Returns a1, s1)
       /\ setupNotificationListeners s1 = (Returns a2, s2)
       /\ teardown a1 s2 = (Returns tt, s3)
       /\ subscriptions s3 = [notificationListener a2; responseListener a2].
Proof.
  assert (Hwf : registry_wf initial_state) by constructor.
  split; [exact Hwf|].
  destruct (teardown_leaves_other_attachment initial_state Hwf)
    as (a1 & s1 & a2 & s2 & s3 & H1 & H2 & H3 & H4).
  exists a1, s1, a2, s2, s3. auto.
Defined.

(** ** The icons of the sheet *)

(** X11. The sheet draws each of the four notification types with its own
    glyph and colour, so that two rows with the same icon have the same
    type, and none of the four types falls through to the fallback icon of
    the [switch]. *)
Theorem icons_tell_types_apart :
  (forall t1 t2 : NotificationType,
     NotificationSheet.getNotificationIcon (NotificationSheet.type_name t1)
     = NotificationSheet.getNotificationIcon (NotificationSheet.type_name t2) ->
     t1 = t2)
  /\ (forall t : NotificationType,
        NotificationSheet.getNotificationIcon (NotificationSheet.type_name t)
        <> (NotificationSheet.Bell, NotificationSheet.textSecondary)).
Proof.
  split.
  - intros [] []; vm_compute; intros H; try reflexivity; discriminate H.
  - intros []; vm_compute; discriminate.
Qed.

(** X12. Any type string other than the four known ones, a known name in
    another letter case included, is drawn with the fallback icon: the bell
    in the secondary text colour. *)
Theorem unknown_type_gets_fallback_icon (type : string) :
  type <> "signal" -> type <> "achievement" ->
  type <> "announcement" -> type <> "alert" ->
  NotificationSheet.getNotificationIcon type
  = (NotificationSheet.Bell, NotificationSheet.textSecondary).
Proof.
  intros H1 H2 H3 H4. unfold NotificationSheet.getNotificationIcon.
  apply String.eqb_neq in H1, H2, H3, H4.
  now rewrite H1, H2, H3, H4.
Qed.

Lemma unknown_type_gets_fallback_icon_witness :
  NotificationSheet.getNotificationIcon "Signal"
  = (NotificationSheet.Bell, NotificationSheet.textSecondary).
Proof.
  apply (unknown_type_gets_fallback_icon "Signal"); discriminate.
Defined.

(** ** The chart page *)

Lemma substring_all s m :
  String.length s <= m -> String.substring 0 m s = s.
Proof.
  revert m. induction s as [|c s IH]; intros m Hm.
  - now destruct m.
  - destruct m as [|m]; simpl in *; [lia|]. f_equal. apply IH. lia.
Qed.

(** Replacing the first slash by nothing, one character at a time. *)
Lemma replace_first_slash_step c rest :
  replace_first "/" EmptyString (String c rest)
  = if Ascii.eqb slash c then rest
    else String c (replace_first "/" EmptyString rest).
Proof.
  cbn [replace_first String.prefix].
  destruct (Ascii.ascii_dec _ c) as [Heq|Hne].
  - assert (Hb : Ascii.eqb slash c = true) by (apply Ascii.eqb_eq; exact Heq).
    rewrite Hb.
    cbn [String.prefix String.length String.substring String.append].
    replace (String.prefix EmptyString rest) with true by (now destruct rest).
    cbn [String.append]. apply substring_all. lia.
  - assert (Hb : Ascii.eqb slash c = false) by (apply Ascii.eqb_neq; exact Hne).
    now rewrite Hb.
Qed.

Lemma append_empty s : String.append EmptyString s = s.
Proof. reflexivity. Qed.

Lemma append_cons c s t : String.append (String c s) t = String c (String.append s t).
Proof. reflexivity. Qed.

Lemma replace_first_slash_absent s :
  occurs slash s = false -> replace_first "/" EmptyString s = s.
Proof.
  induction s as [|c s IH]; intros Hno; [reflexivity|].
  cbn [occurs] in Hno. apply orb_false_iff in Hno as [Hc Hs].
  rewrite replace_first_slash_step, Hc. f_equal. now apply IH.
Qed.

Lemma replace_first_slash_present before after :
  occurs slash before = false ->
  replace_first "/" EmptyString
    (String.append before (String slash after))
  = String.append before after.
Proof.
  induction before as [|c before IH]; intros Hno.
  - rewrite !append_empty, replace_first_slash_step.
    now rewrite Ascii.eqb_refl.
  - cbn [occurs] in Hno. apply orb_false_iff in Hno as [Hc Hs].
    rewrite !append_cons, replace_first_slash_step, Hc. f_equal. now apply IH.
Qed.

(** X13. A symbol without a slash is put into the chart page as it is,
    between the two literal parts of the template. *)
Theorem chart_page_of_plain_symbol (symbol : string) :
  occurs slash symbol = false ->
  getTradingViewHTML symbol
  = String.append chart_page_head (String.append symbol chart_page_tail).
Proof.
  intros Hno. unfold getTradingViewHTML. now rewrite replace_first_slash_absent.
Qed.

Lemma chart_page_of_plain_symbol_witness :
  getTradingViewHTML "XAUUSD"
  = String.append chart_page_head (String.append "XAUUSD" chart_page_tail).
Proof.
  apply (chart_page_of_plain_symbol "XAUUSD"). reflexivity.
Defined.

(** X14. Only the first slash of a symbol is dropped on the way into the
    chart page: what follows it, further slashes included, is kept, and the
    page is the one of the symbol written without that slash. *)
Theorem chart_page_drops_first_slash_only (before after : string) :
  occurs slash before = false ->
  getTradingViewHTML (String.append before (String slash after))
  = String.append chart_page_head
      (String.append (String.append before after) chart_page_tail)
  /\ (occurs slash after = false ->
      getTradingViewHTML (String.append before (String slash after))
      = getTradingViewHTML (String.append before after))
  /\ (occurs slash after = true ->
      occurs slash (replace_first "/" EmptyString
                      (String.append before (String slash after))) = true).
Proof.
  intros Hno. unfold getTradingViewHTML.
  rewrite (replace_first_slash_present before after Hno).
  split; [reflexivity|]. split.
  - intros Hafter. rewrite replace_first_slash_absent; [reflexivity|].
    clear -Hno Hafter. induction before as [|c before IH]; [exact Hafter|].
    rewrite append_cons. cbn [occurs] in *. apply orb_false_iff in Hno as [Hc Hs].
    rewrite Hc. now apply IH.
  - intros Hafter. clear -Hafter.
    induction before as [|c before IH]; [exact Hafter|].
    rewrite append_cons. cbn [occurs]. rewrite IH. apply orb_true_r.
Qed.

Lemma chart_page_drops_first_slash_only_witness :
  getTradingViewHTML "XAU/USD" = getTradingViewHTML "XAUUSD"
  /\ replace_first "/" EmptyString "XAU/USD/spot" = "XAUUSD/spot".
Proof.
  split.
  - destruct (chart_page_drops_first_slash_only "XAU" "USD" eq_refl) as (_ & H & _).
    exact (H eq_refl).
  - reflexivity.
Defined.
